(** * hostpwrctl: host power control over D-Bus, with confirmation

    A shallow embedding of [src/hostpwrctl.cpp].  The program sends one
    power transition request to the chassis or host state manager, then
    waits in an sd-event loop for [PropertiesChanged] signals until the
    observed pair of states equals the expected pair, or a timer expires.

    Modelling choices, all taken from the source:
    - [std::string] is [string]; the four file-scope strings and the
      observable effects (stdout, stderr, the method calls handed to
      [systemBus.call], the exit request of [systemEvent]) form [World];
    - C++ exceptions are explicit: a computation returns [Normal a] or
      [Thrown e] together with the world it leaves behind, and
      [try_catch] is the source's [catch (const SdBusError&)];
    - the bus peer is an oracle [Bus] answering each method call from the
      history of calls made so far;
    - the event loop dispatches the deferred action first and then the
      events of a schedule, one at a time, until an exit is requested. *)

From Stdlib Require Import ZArith DecimalString.
From stdpp Require Import base strings list gmap.

Local Open Scope string_scope.

(** ** Constants of the source *)

Definition EXIT_SUCCESS : Z := 0.
Definition EXIT_FAILURE : Z := 1.

Definition confirmationTime : Z := 30.

Definition chassisPath := "/xyz/openbmc_project/state/chassis0".
Definition chassisIface := "xyz.openbmc_project.State.Chassis".
Definition chassisState := "CurrentPowerState".
Definition chassisStateOn := "xyz.openbmc_project.State.Chassis.PowerState.On".
Definition chassisStateOff := "xyz.openbmc_project.State.Chassis.PowerState.Off".
Definition chassisTransition := "RequestedPowerTransition".
Definition chassisTransitionOff := "xyz.openbmc_project.State.Chassis.Transition.Off".

Definition hostPath := "/xyz/openbmc_project/state/host0".
Definition hostIface := "xyz.openbmc_project.State.Host".
Definition hostState := "CurrentHostState".
Definition hostStateOn := "xyz.openbmc_project.State.Host.HostState.Running".
Definition hostStateOff := "xyz.openbmc_project.State.Host.HostState.Off".
Definition hostTransition := "RequestedHostTransition".
Definition hostTransitionOn := "xyz.openbmc_project.State.Host.Transition.On".
Definition hostTransitionOff := "xyz.openbmc_project.State.Host.Transition.Off".
Definition hostTransitionReboot := "xyz.openbmc_project.State.Host.Transition.Reboot".

Definition ifaceDBusProperties := "org.freedesktop.DBus.Properties".

(** The line feed that ends every message of the program. *)
Definition nl : string := String (Ascii.ascii_of_nat 10) "".

(** ** Exceptions and outcomes *)

Inductive Exn : Type :=
  | SdBusError (what : string)
  | OutOfRange.

Inductive Outcome (A : Type) : Type :=
  | Normal (a : A)
  | Thrown (e : Exn).
Arguments Normal {A} a.
Arguments Thrown {A} e.

(** ** [std::string] operations used by [trimClassName] *)

(** [value.rfind(c)]: the index of the last occurrence of [c]; [None]
    stands for [std::string::npos], which no index of a string reaches. *)
Fixpoint rfind (c : Ascii.ascii) (value : string) : option nat :=
  match value with
  | EmptyString => None
  | String a rest =>
      match rfind c rest with
      | Some i => Some (S i)
      | None => if Ascii.eqb a c then Some 0 else None
      end
  end.

(** The characters of [value] from index [pos] on. *)
Fixpoint string_drop (pos : nat) (value : string) : string :=
  match pos, value with
  | 0, _ => value
  | S p, EmptyString => EmptyString
  | S p, String _ rest => string_drop p rest
  end.

(** [value.substr(pos)]: throws [std::out_of_range] when [pos > size()]. *)
Definition substr (pos : nat) (value : string) : Outcome string :=
  if Nat.leb pos (String.length value)
  then Normal (string_drop pos value)
  else Thrown OutOfRange.

Definition dot : Ascii.ascii := Ascii.ascii_of_nat 46.

(** [trimClassName]: [last && last != npos] selects the substring after
    the last dot, every other value is returned as it is. *)
Definition trimClassName (value : string) : Outcome string :=
  match rfind dot value with
  | Some (S last') => substr (S (S last')) value
  | Some 0 => Normal value
  | None => Normal value
  end.

(** The pure function [trimClassName] computes. *)
Definition trimmed (value : string) : string :=
  match rfind dot value with
  | Some (S last') => string_drop (S (S last')) value
  | _ => value
  end.

(** [last] is the index of the last dot of [value]. *)
Definition IsLastDot (value : string) (last : nat) : Prop :=
  String.get last value = Some dot /\
  forall j, last < j -> String.get j value <> Some dot.

(** [value] has no dot. *)
Definition NoDot (value : string) : Prop :=
  forall j, String.get j value <> Some dot.

(** ** The world the program acts on *)

(** A method call handed to [systemBus.call]. *)
Inductive BusCall : Type :=
  | GetObject (path : string) (ifaces : list string)
  | PropertiesGet (service path iface property : string)
  | PropertiesSet (service path iface property value : string).

(** What the peer does with a call: it answers, or the call (or the
    reading of its reply) throws [SdBusError] with the text [what]. *)
Inductive Reply (A : Type) : Type :=
  | Answer (a : A)
  | Failure (what : string).
Arguments Answer {A} a.
Arguments Failure {A} what.

(** The bus peer: each answer may depend on the calls made before. *)
Record Bus : Type := mkBus {
  answerGetObject :
    list BusCall -> string -> list string -> Reply (list (string * list string));
  answerGet :
    list BusCall -> string -> string -> string -> string -> Reply string;
  answerSet :
    list BusCall -> string -> string -> string -> string -> string -> Reply unit
}.

(** The file-scope variables of the source and its observable effects.
    [exitCode] is [Some c] once [systemEvent.exit(c)] has been called;
    [loopStarted] records that [systemEvent.loop()] was entered. *)
Record World : Type := mkWorld {
  currentChassisState : string;
  expectedChassisState : string;
  currentHostState : string;
  expectedHostState : string;
  stdout : list string;
  stderr : list string;
  busLog : list BusCall;
  exitCode : option Z;
  loopStarted : bool
}.

(** Static initialisation: four empty strings, nothing done yet. *)
Definition initialWorld : World :=
  mkWorld "" "" "" "" [] [] [] None false.

Definition set_currentChassisState (v : string) (w : World) : World :=
  mkWorld v (expectedChassisState w) (currentHostState w) (expectedHostState w)
          (stdout w) (stderr w) (busLog w) (exitCode w) (loopStarted w).
Definition set_expectedChassisState (v : string) (w : World) : World :=
  mkWorld (currentChassisState w) v (currentHostState w) (expectedHostState w)
          (stdout w) (stderr w) (busLog w) (exitCode w) (loopStarted w).
Definition set_currentHostState (v : string) (w : World) : World :=
  mkWorld (currentChassisState w) (expectedChassisState w) v (expectedHostState w)
          (stdout w) (stderr w) (busLog w) (exitCode w) (loopStarted w).
Definition set_expectedHostState (v : string) (w : World) : World :=
  mkWorld (currentChassisState w) (expectedChassisState w) (currentHostState w) v
          (stdout w) (stderr w) (busLog w) (exitCode w) (loopStarted w).
Definition add_stdout (line : string) (w : World) : World :=
  mkWorld (currentChassisState w) (expectedChassisState w)
          (currentHostState w) (expectedHostState w)
          (stdout w ++ [line]) (stderr w) (busLog w) (exitCode w) (loopStarted w).
Definition add_stderr (line : string) (w : World) : World :=
  mkWorld (currentChassisState w) (expectedChassisState w)
          (currentHostState w) (expectedHostState w)
          (stdout w) (stderr w ++ [line]) (busLog w) (exitCode w) (loopStarted w).
Definition add_busLog (c : BusCall) (w : World) : World :=
  mkWorld (currentChassisState w) (expectedChassisState w)
          (currentHostState w) (expectedHostState w)
          (stdout w) (stderr w) (busLog w ++ [c]) (exitCode w) (loopStarted w).
Definition set_exitCode (c : Z) (w : World) : World :=
  mkWorld (currentChassisState w) (expectedChassisState w)
          (currentHostState w) (expectedHostState w)
          (stdout w) (stderr w) (busLog w) (Some c) (loopStarted w).
Definition set_loopStarted (w : World) : World :=
  mkWorld (currentChassisState w) (expectedChassisState w)
          (currentHostState w) (expectedHostState w)
          (stdout w) (stderr w) (busLog w) (exitCode w) true.

(** ** Computations: state passing with exceptions *)

Definition M (A : Type) : Type := World -> Outcome A * World.

Definition ret {A : Type} (a : A) : M A := fun w => (Normal a, w).

Definition bind {A B : Type} (m : M A) (k : A -> M B) : M B :=
  fun w =>
    match m w with
    | (Normal a, w') => k a w'
    | (Thrown e, w') => (Thrown e, w')
    end.

Declare Scope M_scope.
Delimit Scope M_scope with M.
Notation "'let*' x := m 'in' k" := (bind m (fun x => k))
  (at level 10, x name, m at level 100, k at level 200) : M_scope.
Notation "m >> k" := (bind m (fun _ => k))
  (at level 61, left associativity) : M_scope.
Local Open Scope M_scope.

(** A pure result that may be an exception, run in a world. *)
Definition lift {A : Type} (o : Outcome A) : M A := fun w => (o, w).

(** [try { m } catch (const SdBusError& e) { handler(e.what()) }]:
    other exceptions pass through. *)
Definition try_catch {A : Type} (m : M A) (handler : string -> M A) : M A :=
  fun w =>
    match m w with
    | (Thrown (SdBusError what), w') => handler what w'
    | r => r
    end.

Definition modify (f : World -> World) : M unit := fun w => (Normal tt, f w).
Definition gets {A : Type} (f : World -> A) : M A := fun w => (Normal (f w), w).

Definition printf (line : string) : M unit := modify (add_stdout line).
Definition fprintf_stderr (line : string) : M unit := modify (add_stderr line).

(** [systemEvent.exit(code)]: records the request; the loop stops
    dispatching once it sees it. *)
Definition systemEvent_exit (code : Z) : M unit := modify (set_exitCode code).

(** [systemBus.call(method)] with the reply read: the call is logged,
    then the peer's answer is returned or [SdBusError] is thrown. *)
Definition bus_call {A : Type} (c : BusCall) (answer : list BusCall -> Reply A) : M A :=
  fun w =>
    match answer (busLog w) with
    | Answer a => (Normal a, add_busLog c w)
    | Failure what => (Thrown (SdBusError what), add_busLog c w)
    end.

(** [services.begin()->first] of the [std::map] the reply is read into:
    the least key in the order of [std::string]. *)
Fixpoint first_key (services : list (string * list string)) : option string :=
  match services with
  | [] => None
  | (k, _) :: rest =>
      match first_key rest with
      | Some k' => if String.ltb k' k then Some k' else Some k
      | None => Some k
      end
  end.

Section Program.

Variable bus : Bus.

(** [getService]: asks the object mapper; an error is logged and leaves
    [services] empty; the first service name, or the empty string. *)
Definition getService (path iface : string) : M string :=
  let ifaces := [iface] in
  let* services :=
    try_catch
      (bus_call (GetObject path ifaces) (fun h => answerGetObject bus h path ifaces))
      (fun what =>
         fprintf_stderr ("Error occurred during the object mapper call: " +:+ what +:+ nl)
         >> ret [])
  in
  match first_key services with
  | Some service => ret service
  | None => ret ""
  end.

(** [getProperty]: the empty string when no service owns the object or
    when the [Get] call fails. *)
Definition getProperty (path iface property : string) : M string :=
  let* service := getService path iface in
  if String.eqb service "" then ret ""
  else
    try_catch
      (bus_call (PropertiesGet service path iface property)
                (fun h => answerGet bus h service path iface property))
      (fun what =>
         fprintf_stderr ("Error occurred during get property request, " +:+ what +:+ nl)
         >> ret "").

(** [setProperty]: returns at once when no service owns the object;
    a failing [Set] call is logged. *)
Definition setProperty (path iface property value : string) : M unit :=
  let* service := getService path iface in
  if String.eqb service "" then ret tt
  else
    try_catch
      (bus_call (PropertiesSet service path iface property value)
                (fun h => answerSet bus h service path iface property value))
      (fun what =>
         fprintf_stderr ("Error occurred during set property request, " +:+ what +:+ nl)).

(** [exitOnExpectedState]: requests a successful exit when both expected
    values are set and equal the current ones. *)
Definition exitOnExpectedState : M unit :=
  fun w =>
    if negb (String.eqb (expectedHostState w) "")
       && negb (String.eqb (expectedChassisState w) "")
       && String.eqb (expectedHostState w) (currentHostState w)
       && String.eqb (expectedChassisState w) (currentChassisState w)
    then systemEvent_exit EXIT_SUCCESS w
    else (Normal tt, w).

(** The body of a [PropertiesChanged] signal as [m.read] delivers it. *)
Record Signal : Type := mkSignal {
  sig_iface : string;
  sig_data : gmap string string;
  sig_invalidated : list string
}.

(** [onPropertiesChanged] *)
Definition onPropertiesChanged (m : Signal) : M unit :=
  let iface := sig_iface m in
  let data := sig_data m in
  if String.eqb iface chassisIface then
    match data !! chassisState with
    | Some v =>
        modify (set_currentChassisState v) >>
        (let* current := gets currentChassisState in
         let* shown := lift (trimClassName current) in
         printf ("Current Chassis State: " +:+ shown +:+ nl)) >>
        exitOnExpectedState
    | None => ret tt
    end
  else if String.eqb iface hostIface then
    match data !! hostState with
    | Some v =>
        modify (set_currentHostState v) >>
        (let* current := gets currentHostState in
         let* shown := lift (trimClassName current) in
         printf ("Current Host State: " +:+ shown +:+ nl)) >>
        exitOnExpectedState
    | None => ret tt
    end
  else ret tt.

(** [switchHostPowerOn]: the action of [on]. *)
Definition switchHostPowerOn : M unit :=
  let* current := gets currentChassisState in
  if negb (String.eqb current chassisStateOn) then
    modify (set_expectedHostState hostStateOn) >>
    modify (set_expectedChassisState chassisStateOn) >>
    setProperty hostPath hostIface hostTransition hostTransitionOn >>
    printf ("Power up signal was sent to host, waiting for system start." +:+ nl)
  else
    printf ("System is already up." +:+ nl) >>
    systemEvent_exit EXIT_SUCCESS.

(** [switchHostPowerOff]: the action of [soft]. *)
Definition switchHostPowerOff : M unit :=
  let* current := gets currentChassisState in
  if negb (String.eqb current chassisStateOff) then
    modify (set_expectedHostState hostStateOff) >>
    modify (set_expectedChassisState chassisStateOff) >>
    setProperty hostPath hostIface hostTransition hostTransitionOff >>
    printf ("Shutdown signal was sent to host, waiting for system down." +:+ nl)
  else
    printf ("System is already down." +:+ nl) >>
    systemEvent_exit EXIT_SUCCESS.

(** [switchChassisPowerOff]: the action of [off]. *)
Definition switchChassisPowerOff : M unit :=
  let* current := gets currentChassisState in
  if negb (String.eqb current chassisStateOff) then
    modify (set_expectedHostState hostStateOff) >>
    modify (set_expectedChassisState chassisStateOff) >>
    setProperty chassisPath chassisIface chassisTransition chassisTransitionOff >>
    printf ("Shutdown signal was sent to chassis, waiting for system down." +:+ nl)
  else
    printf ("System is already down." +:+ nl) >>
    systemEvent_exit EXIT_SUCCESS.

(** [resetHostPower]: the action of [reboot]. *)
Definition resetHostPower : M unit :=
  let* current := gets currentChassisState in
  if negb (String.eqb current chassisStateOff) then
    modify (set_expectedHostState hostStateOn) >>
    modify (set_expectedChassisState chassisStateOn) >>
    setProperty hostPath hostIface hostTransition hostTransitionReboot >>
    printf ("Reboot signal was sent to host, waiting for system down and start again."
            +:+ nl)
  else
    printf ("Chassis is off, reboot is impossible." +:+ nl) >>
    systemEvent_exit EXIT_SUCCESS.

(** [showPowerStatus]: the action of [status]; [source.get_event()] is
    [systemEvent]. *)
Definition showPowerStatus : M unit :=
  (let* current := gets currentChassisState in
   let* shown := lift (trimClassName current) in
   printf ("Current Chassis state: " +:+ shown +:+ nl)) >>
  (let* current := gets currentHostState in
   let* shown := lift (trimClassName current) in
   printf ("Current Host state: " +:+ shown +:+ nl)) >>
  systemEvent_exit 0.

(** The functions [getAction] can return, as function pointers. *)
Inductive Callback : Type :=
  | SwitchHostPowerOn
  | SwitchChassisPowerOff
  | SwitchHostPowerOff
  | ResetHostPower
  | ShowPowerStatus.

(** Calling through the pointer. *)
Definition invoke (action : Callback) : M unit :=
  match action with
  | SwitchHostPowerOn => switchHostPowerOn
  | SwitchChassisPowerOff => switchChassisPowerOff
  | SwitchHostPowerOff => switchHostPowerOff
  | ResetHostPower => resetHostPower
  | ShowPowerStatus => showPowerStatus
  end.

(** [getAction]: [None] is the [nullptr] of an unknown command. *)
Definition getAction (command : string) : option Callback :=
  if String.eqb command "on" then Some SwitchHostPowerOn
  else if String.eqb command "off" then Some SwitchChassisPowerOff
  else if String.eqb command "soft" then Some SwitchHostPowerOff
  else if String.eqb command "reboot" then Some ResetHostPower
  else if String.eqb command "status" then Some ShowPowerStatus
  else None.

(** [showUsage] *)
Definition usageCommands : string :=
  "The commands:" +:+ nl +:+
  "  on     - turn the host on" +:+ nl +:+
  "  off    - turn the host off" +:+ nl +:+
  "  soft   - gracefully turn the host off" +:+ nl +:+
  "  reset  - resetting host power" +:+ nl +:+
  "  status - show actual host power state" +:+ nl.

Definition showUsage (app : string) : M unit :=
  printf ("Usage: " +:+ app +:+ " <command>" +:+ nl) >>
  printf usageCommands.

(** The callback of the confirmation timer. *)
Definition timeoutMessage : string :=
  "Unable to confirm operation success within timeout period ("
  +:+ NilZero.string_of_int (Z.to_int confirmationTime) +:+ " s)." +:+ nl.

Definition onTimer : M unit :=
  printf timeoutMessage >>
  systemEvent_exit EXIT_FAILURE.

(** ** The event loop *)

(** What the loop can be woken by after the deferred action: a signal
    matched by one of the two subscriptions, or the timer. *)
Inductive LoopEvent : Type :=
  | PropertiesChanged (m : Signal)
  | TimerExpired.

Definition dispatch (ev : LoopEvent) : M unit :=
  match ev with
  | PropertiesChanged m => onPropertiesChanged m
  | TimerExpired => onTimer
  end.

(** One source is dispatched per iteration; once an exit was requested
    nothing more is dispatched and the loop returns the exit code.
    [None]: the schedule ran out with the loop still waiting. *)
Fixpoint run_sources (events : list LoopEvent) : M (option Z) :=
  fun w =>
    match exitCode w with
    | Some code => (Normal (Some code), w)
    | None =>
        match events with
        | [] => (Normal None, w)
        | ev :: rest => (dispatch ev >> run_sources rest) w
        end
    end.

(** [systemEvent.loop()] with the [Defer] source holding [action]: the
    deferred source is pending from the start and runs first, once. *)
Definition systemEvent_loop (action : Callback) (events : list LoopEvent) : M (option Z) :=
  modify set_loopStarted >>
  invoke action >>
  run_sources events.

(** [main]: [app] is [argv[0]] and [args] are the arguments after it, so
    [argc] is [1 + length args]. *)
Definition main (app : string) (args : list string) (events : list LoopEvent)
  : M (option Z) :=
  match args with
  | [command] =>
      match getAction command with
      | None => showUsage app >> ret (Some EXIT_FAILURE)
      | Some action =>
          (let* v := getProperty chassisPath chassisIface chassisState in
           modify (set_currentChassisState v)) >>
          (let* v := getProperty hostPath hostIface hostState in
           modify (set_currentHostState v)) >>
          systemEvent_loop action events
      end
  | _ => showUsage app >> ret (Some EXIT_FAILURE)
  end.

End Program.

(** ** Vocabulary of the properties *)

(** Both expected states are set and equal the current ones. *)
Definition Completed (w : World) : Prop :=
  expectedHostState w <> "" /\ expectedChassisState w <> "" /\
  expectedHostState w = currentHostState w /\
  expectedChassisState w = currentChassisState w.

(** The pair (chassis, host) an action assigns to the expected states
    when it goes on to request a transition. *)
Definition expectedTarget (action : Callback) : option (string * string) :=
  match action with
  | SwitchHostPowerOn => Some (chassisStateOn, hostStateOn)
  | SwitchChassisPowerOff => Some (chassisStateOff, hostStateOff)
  | SwitchHostPowerOff => Some (chassisStateOff, hostStateOff)
  | ResetHostPower => Some (chassisStateOn, hostStateOn)
  | ShowPowerStatus => None
  end.

(** The current chassis state at which an action takes its shortcut. *)
Definition guardState (action : Callback) : option string :=
  match action with
  | SwitchHostPowerOn => Some chassisStateOn
  | SwitchChassisPowerOff => Some chassisStateOff
  | SwitchHostPowerOff => Some chassisStateOff
  | ResetHostPower => Some chassisStateOff
  | ShowPowerStatus => None
  end.

(** The [Set] calls among some method calls. *)
Definition isSet (c : BusCall) : bool :=
  match c with
  | PropertiesSet _ _ _ _ _ => true
  | _ => false
  end.

Definition setCalls (calls : list BusCall) : list BusCall :=
  List.filter isSet calls.

(** The four strings of the program and what the loop has decided are
    the same in both worlds; only logs may differ. *)
Definition sameProgramState (w w' : World) : Prop :=
  currentChassisState w' = currentChassisState w /\
  expectedChassisState w' = expectedChassisState w /\
  currentHostState w' = currentHostState w /\
  expectedHostState w' = expectedHostState w /\
  stdout w' = stdout w /\
  exitCode w' = exitCode w /\
  loopStarted w' = loopStarted w.

(** A signal carries the property its interface is watched for. *)
Definition carriesInterest (m : Signal) : Prop :=
  (sig_iface m = chassisIface /\ is_Some (sig_data m !! chassisState)) \/
  (sig_iface m = hostIface /\ is_Some (sig_data m !! hostState)).

(** ** Some bus peers and worlds to run the program on *)

(** Both state managers are up and report the given states. *)
Definition steadyBus (chassis host : string) : Bus :=
  mkBus
    (fun _ path _ =>
       Answer [(if String.eqb path chassisPath
                then "xyz.openbmc_project.State.Chassis"
                else "xyz.openbmc_project.State.Host", [])])
    (fun _ _ path _ _ => Answer (if String.eqb path chassisPath then chassis else host))
    (fun _ _ _ _ _ _ => Answer tt).

(** The state managers are down: the object mapper finds no owner for
    any object and answers [GetObject] with an error. *)
Definition ownerlessBus : Bus :=
  mkBus (fun _ _ _ =>
           Failure "xyz.openbmc_project.Common.Error.ResourceNotFound")
        (fun _ _ _ _ _ => Answer "")
        (fun _ _ _ _ _ _ => Answer tt).

(** Every call fails. *)
Definition brokenBus : Bus :=
  mkBus (fun _ _ _ => Failure "timed out")
        (fun _ _ _ _ _ => Failure "timed out")
        (fun _ _ _ _ _ _ => Failure "timed out").

(** The mapper answers, every property call fails. *)
Definition refusingBus : Bus :=
  mkBus (fun _ _ _ => Answer [("xyz.openbmc_project.State.Host", [])])
        (fun _ _ _ _ _ => Failure "access denied")
        (fun _ _ _ _ _ _ => Failure "access denied").

Definition seeded (chassis host : string) : World :=
  set_currentHostState host (set_currentChassisState chassis initialWorld).

Definition chassisSignal (v : string) : Signal :=
  mkSignal chassisIface {[ chassisState := v ]} [].
Definition hostSignal (v : string) : Signal :=
  mkSignal hostIface {[ hostState := v ]} [].
(** A chassis signal about another property only. *)
Definition partialSignal : Signal :=
  mkSignal chassisIface {[ chassisTransition := chassisTransitionOff ]} [].

(** A run of [off] or [soft] waiting for both states to go off, with the
    chassis already reported off and the host still running. *)
Definition waitingForOff : World :=
  set_expectedChassisState chassisStateOff
    (set_expectedHostState hostStateOff (seeded chassisStateOff hostStateOn)).

(** The service the object mapper names for an object in world [w]. *)
Definition owner (bus : Bus) (path iface : string) (w : World) : string :=
  match fst (getService bus path iface w) with
  | Normal service => service
  | Thrown _ => ""
  end.

(** The shortcut of an action: a message is printed, a successful exit
    is requested, nothing is sent and no expected state is assigned. *)
Definition TakesShortcut (bus : Bus) (action : Callback) (w : World) : Prop :=
  exists w',
    invoke bus action w = (Normal tt, w') /\
    exitCode w' = Some EXIT_SUCCESS /\
    busLog w' = busLog w /\
    expectedChassisState w' = expectedChassisState w /\
    expectedHostState w' = expectedHostState w.

(** The reading of the guards under which every action would take its
    shortcut as soon as the chassis is in the state the action aims at. *)
Definition ShortcutAtTarget (bus : Bus) : Prop :=
  forall action c h w,
    expectedTarget action = Some (c, h) ->
    currentChassisState w = c ->
    TakesShortcut bus action w.

(** An action that assigns (Off, Off) to the expected states and makes
    exactly one [Set] call, for [property] of the object at [path]. *)
Definition WritesOnce (bus : Bus) (action : Callback)
           (path iface property value : string) (w : World) : Prop :=
  exists w' new service,
    invoke bus action w = (Normal tt, w') /\
    expectedChassisState w' = chassisStateOff /\
    expectedHostState w' = hostStateOff /\
    busLog w' = (busLog w ++ new)%list /\
    setCalls new = [PropertiesSet service path iface property value].

(** The reading under which [off] and [soft] always get their one [Set]
    call out when the chassis is not off. *)
Definition OffAndSoftAlwaysWrite (bus : Bus) : Prop :=
  forall w,
    currentChassisState w <> chassisStateOff ->
    WritesOnce bus SwitchChassisPowerOff
               chassisPath chassisIface chassisTransition chassisTransitionOff w /\
    WritesOnce bus SwitchHostPowerOff
               hostPath hostIface hostTransition hostTransitionOff w.

(** The reading under which a run ends with success only at a
    notification on whose arrival both current states equal both
    expected states. *)
Definition SuccessOnlyAtMatchingNotification (bus : Bus) : Prop :=
  forall app args events w',
    main bus app args events initialWorld = (Normal (Some EXIT_SUCCESS), w') ->
    exists pre m post w1,
      events = (pre ++ PropertiesChanged m :: post)%list /\
      main bus app args pre initialWorld = (Normal None, w1) /\
      expectedChassisState (snd (onPropertiesChanged m w1))
        = currentChassisState (snd (onPropertiesChanged m w1)) /\
      expectedHostState (snd (onPropertiesChanged m w1))
        = currentHostState (snd (onPropertiesChanged m w1)).

(** The peer reports value [v] for a property: at any point of the run
    the object mapper names a service for the object and that service
    answers the [Get] call with [v]. *)
Definition Reports (bus : Bus) (path iface property v : string) : Prop :=
  forall history,
    exists services service,
      answerGetObject bus history path [iface] = Answer services /\
      first_key services = Some service /\
      service <> "" /\
      forall later, answerGet bus later service path iface property = Answer v.

(** The object mapper answers every lookup with an error. *)
Definition MapperDown (bus : Bus) : Prop :=
  forall history path ifaces,
    exists what, answerGetObject bus history path ifaces = Failure what.

(** A chassis signal and a host signal that carry the expected states. *)
Definition ConfirmsChassis (m : Signal) (w : World) : Prop :=
  sig_iface m = chassisIface /\
  sig_data m !! chassisState = Some (expectedChassisState w).
Definition ConfirmsHost (m : Signal) (w : World) : Prop :=
  sig_iface m = hostIface /\
  sig_data m !! hostState = Some (expectedHostState w).

(** The object mapper names three services, not in order. *)
Definition unsortedBus : Bus :=
  mkBus (fun _ _ _ => Answer [("org.b", []); ("org.a", []); ("org.c", [])])
        (fun _ _ _ _ _ => Answer "")
        (fun _ _ _ _ _ _ => Answer tt).

(** The object mapper answers, but names no service. *)
Definition emptyReplyBus : Bus :=
  mkBus (fun _ _ _ => Answer [])
        (fun _ _ _ _ _ => Answer "")
        (fun _ _ _ _ _ _ => Answer tt).

(** The reading under which every failed lookup leaves a line on stderr
    and a [setProperty] whose [Set] call fails has sent no [Set] call. *)
Definition FailuresLoggedNothingSent (bus : Bus) : Prop :=
  forall path iface property value w,
    (forall w1,
       getService bus path iface w = (Normal "", w1) ->
       stderr w1 <> stderr w) /\
    (forall service w1 what,
       getService bus path iface w = (Normal service, w1) ->
       service <> "" ->
       answerSet bus (busLog w1) service path iface property value = Failure what ->
       setCalls (busLog (snd (setProperty bus path iface property value w)))
         = setCalls (busLog w)).

(** * Properties *)

(** ** [rfind] and [trimClassName] *)

Lemma rfind_lt (c : Ascii.ascii) (value : string) (i : nat) :
  rfind c value = Some i -> i < String.length value.
Proof.
  revert i. induction value as [|a rest IH]; intros i H; simpl in *.
  - discriminate.
  - destruct (rfind c rest) as [j|].
    + injection H as <-. specialize (IH j eq_refl). lia.
    + destruct (Ascii.eqb a c); [injection H as <-; lia | discriminate].
Qed.

(** The index [rfind] returns holds [c]. *)
Lemma rfind_get (c : Ascii.ascii) (value : string) (i : nat) :
  rfind c value = Some i -> String.get i value = Some c.
Proof.
  revert i. induction value as [|a rest IH]; intros i H; simpl in *.
  - discriminate.
  - destruct (rfind c rest) as [j|].
    + injection H as <-. simpl. auto.
    + destruct (Ascii.eqb a c) eqn:E; [|discriminate].
      injection H as <-. apply Ascii.eqb_eq in E. now subst.
Qed.

(** Without an index, [c] does not occur. *)
Lemma rfind_None_get (c : Ascii.ascii) (value : string) (j : nat) :
  rfind c value = None -> String.get j value <> Some c.
Proof.
  revert j. induction value as [|a rest IH]; intros j H; simpl in *.
  - destruct j; discriminate.
  - destruct (rfind c rest) as [k|]; [discriminate|].
    destruct (Ascii.eqb a c) eqn:E; [discriminate|].
    destruct j as [|j].
    + intros [= ->]. rewrite Ascii.eqb_refl in E. discriminate.
    + simpl. now apply IH.
Qed.

(** No later index holds [c]: the occurrence found is the last one. *)
Lemma rfind_last (c : Ascii.ascii) (value : string) (i j : nat) :
  rfind c value = Some i -> i < j -> String.get j value <> Some c.
Proof.
  revert i j. induction value as [|a rest IH]; intros i j H Hlt; simpl in *.
  - discriminate.
  - destruct j as [|j]; [lia|]. simpl.
    destruct (rfind c rest) as [k|] eqn:R.
    + injection H as <-. apply (IH k); [reflexivity | lia].
    + now apply rfind_None_get.
Qed.

(** [string_drop] is the library's [substring] up to the end. *)
Lemma string_drop_substring (pos : nat) (value : string) :
  string_drop pos value = String.substring pos (String.length value - pos) value.
Proof.
  revert pos. induction value as [|a rest IH]; intros [|pos]; simpl; auto.
  f_equal. specialize (IH 0). simpl in IH. now rewrite Nat.sub_0_r in IH.
Qed.

(** What follows the last occurrence has no occurrence. *)
Lemma rfind_drop (c : Ascii.ascii) (value : string) (i : nat) :
  rfind c value = Some i -> rfind c (string_drop (S i) value) = None.
Proof.
  revert i. induction value as [|a rest IH]; intros i H; simpl in *.
  - discriminate.
  - destruct (rfind c rest) as [j|] eqn:R.
    + injection H as <-. now apply IH.
    + destruct (Ascii.eqb a c); [|discriminate].
      injection H as <-. simpl. exact R.
Qed.

(** [substr] is always called within range: [trimClassName] never throws. *)
Lemma trimClassName_trimmed (value : string) :
  trimClassName value = Normal (trimmed value).
Proof.
  unfold trimClassName, trimmed.
  destruct (rfind dot value) as [[|last']|] eqn:R; try reflexivity.
  unfold substr. apply rfind_lt in R.
  destruct (Nat.leb_spec (S (S last')) (String.length value)) as [_|Hgt];
    [reflexivity | lia].
Qed.

Lemma trimmed_idempotent (value : string) :
  trimmed (trimmed value) = trimmed value.
Proof.
  assert (H : trimmed value = value \/ rfind dot (trimmed value) = None).
  { unfold trimmed. destruct (rfind dot value) as [[|last']|] eqn:R; auto.
    right. now apply rfind_drop. }
  destruct H as [H|H].
  - now rewrite H.
  - unfold trimmed at 1. now rewrite H.
Qed.

(** [rfind] returns exactly the index of the last occurrence. *)
Lemma rfind_IsLastDot (value : string) (last : nat) :
  IsLastDot value last -> rfind dot value = Some last.
Proof.
  intros [Hget Hlast].
  destruct (rfind dot value) as [k|] eqn:R.
  - destruct (Nat.lt_trichotomy k last) as [Hlt|[->|Hgt]]; [|reflexivity|].
    + exfalso. exact (rfind_last _ _ _ _ R Hlt Hget).
    + exfalso. exact (Hlast k Hgt (rfind_get _ _ _ R)).
  - exfalso. exact (rfind_None_get _ _ last R Hget).
Qed.

Lemma rfind_NoDot (value : string) :
  NoDot value -> rfind dot value = None.
Proof.
  intros H. destruct (rfind dot value) as [k|] eqn:R; [|reflexivity].
  exfalso. exact (H k (rfind_get _ _ _ R)).
Qed.

(** C9: [trimClassName] returns what follows the last dot when that dot
    is at an index above zero, returns the value as it is when there is
    no dot or the last dot is at index zero, and applying it to its own
    result returns that result again. *)
Theorem trimClassName_last_dot_idempotent (value : string) :
  (forall last, IsLastDot value last -> 0 < last ->
     trimClassName value = Normal (string_drop (S last) value)) /\
  (NoDot value \/ IsLastDot value 0 -> trimClassName value = Normal value) /\
  (exists r, trimClassName value = Normal r /\ trimClassName r = Normal r).
Proof.
  split; [|split].
  - intros last R Hpos. apply rfind_IsLastDot in R.
    rewrite trimClassName_trimmed. unfold trimmed.
    rewrite R. destruct last as [|last']; [lia | reflexivity].
  - intros [R|R]; [apply rfind_NoDot in R | apply rfind_IsLastDot in R];
      unfold trimClassName; now rewrite R.
  - exists (trimmed value). split; [apply trimClassName_trimmed|].
    rewrite trimClassName_trimmed. f_equal. apply trimmed_idempotent.
Qed.

Lemma trimClassName_last_dot_idempotent_witness :
  trimClassName "xyz.foo.bar.value" = Normal "value".
Proof.
  refine (proj1 (trimClassName_last_dot_idempotent "xyz.foo.bar.value")
                11 _ (Nat.lt_0_succ 10)).
  apply conj; [reflexivity|].
  intros j Hj.
  do 12 (destruct j as [|j]; [lia|]).
  do 5 (destruct j as [|j]; [discriminate|]).
  destruct j; discriminate.
Defined.

(** ** The property client: [getService], [getProperty], [setProperty] *)

Lemma sameProgramState_refl (w : World) : sameProgramState w w.
Proof. repeat split. Qed.

Lemma sameProgramState_trans (w1 w2 w3 : World) :
  sameProgramState w1 w2 -> sameProgramState w2 w3 -> sameProgramState w1 w3.
Proof.
  unfold sameProgramState. intros (?&?&?&?&?&?&?) (?&?&?&?&?&?&?).
  repeat split; congruence.
Qed.

Lemma sameProgramState_add_busLog (c : BusCall) (w : World) :
  sameProgramState w (add_busLog c w).
Proof. repeat split. Qed.

Lemma sameProgramState_add_stderr (line : string) (w : World) :
  sameProgramState w (add_stderr line w).
Proof. repeat split. Qed.

(** [getService] unfolded: one [GetObject] call, an error line when it
    throws, and never an exception. *)
Lemma getService_eq (bus : Bus) (path iface : string) (w : World) :
  getService bus path iface w =
  match answerGetObject bus (busLog w) path [iface] with
  | Answer services =>
      (Normal (default "" (first_key services)),
       add_busLog (GetObject path [iface]) w)
  | Failure what =>
      (Normal "",
       add_stderr ("Error occurred during the object mapper call: " +:+ what +:+ nl)
                  (add_busLog (GetObject path [iface]) w))
  end.
Proof.
  unfold getService, bind, try_catch, bus_call.
  destruct (answerGetObject bus (busLog w) path [iface]) as [services|what]; simpl.
  - now destruct (first_key services).
  - reflexivity.
Qed.

Lemma getService_total (bus : Bus) (path iface : string) (w : World) :
  exists service w' errs,
    getService bus path iface w = (Normal service, w') /\
    sameProgramState w w' /\
    busLog w' = (busLog w ++ [GetObject path [iface]])%list /\
    stderr w' = (stderr w ++ errs)%list.
Proof.
  rewrite getService_eq.
  destruct (answerGetObject bus (busLog w) path [iface]) as [services|what].
  - eexists _, _, []. repeat split. simpl. now rewrite app_nil_r.
  - eexists _, _, [_]. repeat split.
Qed.

(** [getProperty] after the lookup. *)
Lemma getProperty_after_lookup (bus : Bus) (path iface property : string)
      (w w1 : World) (service : string) :
  getService bus path iface w = (Normal service, w1) ->
  getProperty bus path iface property w =
  if String.eqb service "" then (Normal "", w1)
  else
    match answerGet bus (busLog w1) service path iface property with
    | Answer v =>
        (Normal v, add_busLog (PropertiesGet service path iface property) w1)
    | Failure what =>
        (Normal "",
         add_stderr ("Error occurred during get property request, " +:+ what +:+ nl)
                    (add_busLog (PropertiesGet service path iface property) w1))
    end.
Proof.
  intros H. unfold getProperty, bind. rewrite H.
  destruct (String.eqb service ""); [reflexivity|].
  unfold try_catch, bus_call.
  now destruct (answerGet bus (busLog w1) service path iface property).
Qed.

(** [setProperty] after the lookup. *)
Lemma setProperty_after_lookup (bus : Bus) (path iface property value : string)
      (w w1 : World) (service : string) :
  getService bus path iface w = (Normal service, w1) ->
  setProperty bus path iface property value w =
  if String.eqb service "" then (Normal tt, w1)
  else
    match answerSet bus (busLog w1) service path iface property value with
    | Answer _ =>
        (Normal tt, add_busLog (PropertiesSet service path iface property value) w1)
    | Failure what =>
        (Normal tt,
         add_stderr ("Error occurred during set property request, " +:+ what +:+ nl)
                    (add_busLog (PropertiesSet service path iface property value) w1))
    end.
Proof.
  intros H. unfold setProperty, bind. rewrite H.
  destruct (String.eqb service ""); [reflexivity|].
  unfold try_catch, bus_call.
  now destruct (answerSet bus (busLog w1) service path iface property value)
    as [[]|what].
Qed.

(** [getProperty] always returns, and touches only the logs. *)
Lemma getProperty_total (bus : Bus) (path iface property : string) (w : World) :
  exists v w', getProperty bus path iface property w = (Normal v, w') /\
               sameProgramState w w'.
Proof.
  destruct (getService_total bus path iface w) as (s & w1 & errs & H & Hs & _).
  rewrite (getProperty_after_lookup _ _ _ _ _ _ _ H).
  destruct (String.eqb s ""); [eauto|].
  destruct (answerGet bus (busLog w1) s path iface property); eexists _, _;
    (split; [reflexivity|]); eapply sameProgramState_trans; try exact Hs;
    repeat split.
Qed.

(** [setProperty] always returns, and touches only the logs; the calls it
    adds are the lookup and at most one [Set] call with its arguments. *)
Lemma setProperty_total (bus : Bus) (path iface property value : string) (w : World) :
  exists w' service w1,
    setProperty bus path iface property value w = (Normal tt, w') /\
    sameProgramState w w' /\
    getService bus path iface w = (Normal service, w1) /\
    busLog w' = (busLog w ++ GetObject path [iface] ::
                   (if String.eqb service "" then []
                    else [PropertiesSet service path iface property value]))%list.
Proof.
  destruct (getService_total bus path iface w) as (s & w1 & errs & H & Hs & Hl & _).
  rewrite (setProperty_after_lookup _ _ _ _ _ _ _ _ H).
  destruct (String.eqb s "") eqn:E.
  - exists w1, s, w1. rewrite E. split; [reflexivity|]. split; [exact Hs|].
    split; [exact H|]. exact Hl.
  - destruct (answerSet bus (busLog w1) s path iface property value);
      eexists _, s, w1; rewrite E; (split; [reflexivity|]);
      (split; [eapply sameProgramState_trans; try exact Hs; repeat split|]);
      (split; [exact H|]); simpl; rewrite Hl, <- app_assoc; reflexivity.
Qed.

(** C8, as the code has it: no failure of the service lookup or of a
    property call reaches the caller of [getProperty] or [setProperty].
    Both always return normally and leave the four state strings, stdout
    and the exit request as they were.  Every thrown error becomes one
    line on stderr; a reply of the object mapper that names no service
    is no error and leaves stderr as it is.  When the lookup yields no
    service, [getProperty] returns the empty string and [setProperty]
    sends no [Set] call.  When the [Get] call throws, [getProperty]
    returns the empty string.  When the [Set] call throws, [setProperty]
    has sent that one [Set] call and returns with the error line added. *)
Theorem property_errors_do_not_propagate
        (bus : Bus) (path iface property value : string) (w : World) :
  (exists v w', getProperty bus path iface property w = (Normal v, w') /\
                sameProgramState w w') /\
  (exists w', setProperty bus path iface property value w = (Normal tt, w') /\
              sameProgramState w w') /\
  (forall what,
     answerGetObject bus (busLog w) path [iface] = Failure what ->
     getService bus path iface w =
       (Normal "",
        add_stderr ("Error occurred during the object mapper call: " +:+ what +:+ nl)
                   (add_busLog (GetObject path [iface]) w))) /\
  (forall w1,
     getService bus path iface w = (Normal "", w1) ->
     getProperty bus path iface property w = (Normal "", w1) /\
     setProperty bus path iface property value w = (Normal tt, w1) /\
     setCalls (busLog w1) = setCalls (busLog w)) /\
  (forall service w1 what,
     getService bus path iface w = (Normal service, w1) ->
     service <> "" ->
     answerGet bus (busLog w1) service path iface property = Failure what ->
     getProperty bus path iface property w =
       (Normal "",
        add_stderr ("Error occurred during get property request, " +:+ what +:+ nl)
                   (add_busLog (PropertiesGet service path iface property) w1))) /\
  (forall service w1 what,
     getService bus path iface w = (Normal service, w1) ->
     service <> "" ->
     answerSet bus (busLog w1) service path iface property value = Failure what ->
     setProperty bus path iface property value w =
       (Normal tt,
        add_stderr ("Error occurred during set property request, " +:+ what +:+ nl)
                   (add_busLog (PropertiesSet service path iface property value) w1)) /\
     setCalls (busLog (snd (setProperty bus path iface property value w))) =
       (setCalls (busLog w)
          ++ [PropertiesSet service path iface property value])%list) /\
  (forall services,
     answerGetObject bus (busLog w) path [iface] = Answer services ->
     getService bus path iface w =
       (Normal (default "" (first_key services)),
        add_busLog (GetObject path [iface]) w) /\
     stderr (snd (getService bus path iface w)) = stderr w).
Proof.
  split; [apply getProperty_total|].
  split.
  { destruct (setProperty_total bus path iface property value w)
      as (w' & _ & _ & H & Hs & _). eauto. }
  split.
  { intros what H. rewrite getService_eq. now rewrite H. }
  split.
  { intros w1 H.
    rewrite (getProperty_after_lookup _ _ _ _ _ _ _ H).
    rewrite (setProperty_after_lookup _ _ _ _ _ _ _ _ H). simpl.
    repeat split.
    destruct (getService_total bus path iface w) as (s & w2 & errs & H2 & _ & Hl & _).
    rewrite H in H2. injection H2 as _ <-. rewrite Hl.
    unfold setCalls. rewrite List.filter_app. simpl. now rewrite app_nil_r. }
  split.
  { intros service w1 what H Hne Hfail.
    rewrite (getProperty_after_lookup _ _ _ _ _ _ _ H).
    apply String.eqb_neq in Hne. rewrite Hne. now rewrite Hfail. }
  split.
  - intros service w1 what H Hne Hfail.
    rewrite (setProperty_after_lookup _ _ _ _ _ _ _ _ H).
    apply String.eqb_neq in Hne. rewrite Hne, Hfail.
    split; [reflexivity|]. simpl.
    destruct (getService_total bus path iface w) as (s & w2 & errs & H2 & _ & Hl & _).
    rewrite H in H2. injection H2 as _ <-. rewrite Hl.
    unfold setCalls. rewrite !List.filter_app. simpl. now rewrite app_nil_r.
  - intros services H. rewrite getService_eq, H. split; reflexivity.
Qed.

Lemma property_errors_do_not_propagate_witness :
  getProperty brokenBus chassisPath chassisIface chassisState initialWorld =
    (Normal "", snd (getService brokenBus chassisPath chassisIface initialWorld)) /\
  (setProperty refusingBus hostPath hostIface hostTransition hostTransitionOff
               initialWorld =
     (Normal tt,
      add_stderr ("Error occurred during set property request, "
                  +:+ "access denied" +:+ nl)
        (add_busLog (PropertiesSet "xyz.openbmc_project.State.Host" hostPath
                                   hostIface hostTransition hostTransitionOff)
           (snd (getService refusingBus hostPath hostIface initialWorld)))) /\
   setCalls (busLog (snd (setProperty refusingBus hostPath hostIface hostTransition
                                      hostTransitionOff initialWorld))) =
     [PropertiesSet "xyz.openbmc_project.State.Host" hostPath hostIface
                    hostTransition hostTransitionOff]) /\
  stderr (snd (getService emptyReplyBus hostPath hostIface initialWorld)) = [].
Proof.
  split; [|split].
  - apply (proj1 (proj1 (proj2 (proj2 (proj2
             (property_errors_do_not_propagate brokenBus chassisPath chassisIface
                chassisState "" initialWorld)))) _ eq_refl)).
  - apply (proj1 (proj2 (proj2 (proj2 (proj2 (proj2
             (property_errors_do_not_propagate refusingBus hostPath hostIface
                hostTransition hostTransitionOff initialWorld))))))
             "xyz.openbmc_project.State.Host" _ "access denied" eq_refl).
    + discriminate.
    + reflexivity.
  - apply (proj2 (proj2 (proj2 (proj2 (proj2 (proj2 (proj2
             (property_errors_do_not_propagate emptyReplyBus hostPath hostIface
                hostTransition hostTransitionOff initialWorld))))))
             [] eq_refl)).
Defined.

(** C8 as stated fails in two places: a [setProperty] whose [Set] call
    throws has sent that call, and a lookup that fails because the
    object mapper names no service writes no line to stderr. *)
Lemma failed_set_was_sent_and_empty_reply_not_logged :
  ~ FailuresLoggedNothingSent refusingBus /\
  ~ FailuresLoggedNothingSent emptyReplyBus.
Proof.
  split; intros H.
  - destruct (H hostPath hostIface hostTransition hostTransitionOff initialWorld)
      as [_ H2].
    specialize (H2 "xyz.openbmc_project.State.Host"
                   (snd (getService refusingBus hostPath hostIface initialWorld))
                   "access denied" eq_refl).
    assert (N : "xyz.openbmc_project.State.Host" <> "") by discriminate.
    specialize (H2 N eq_refl). vm_compute in H2. discriminate H2.
  - destruct (H hostPath hostIface hostTransition hostTransitionOff initialWorld)
      as [H1 _].
    apply (H1 (snd (getService emptyReplyBus hostPath hostIface initialWorld))
              eq_refl).
    reflexivity.
Qed.

(** ** The completion check and the signal handler *)

Lemma exitOnExpectedState_test (w : World) :
  negb (String.eqb (expectedHostState w) "")
  && negb (String.eqb (expectedChassisState w) "")
  && String.eqb (expectedHostState w) (currentHostState w)
  && String.eqb (expectedChassisState w) (currentChassisState w) = true
  <-> Completed w.
Proof.
  unfold Completed.
  rewrite !andb_true_iff, !negb_true_iff, !String.eqb_eq, !String.eqb_neq.
  tauto.
Qed.

Lemma exitOnExpectedState_cases (w : World) :
  exitOnExpectedState w = (Normal tt, w) \/
  exitOnExpectedState w = (Normal tt, set_exitCode EXIT_SUCCESS w).
Proof.
  unfold exitOnExpectedState.
  destruct (_ && _); [right | left]; reflexivity.
Qed.

(** C3: the completion check requests a successful exit exactly when
    both expected states are set and equal the current states; in every
    other state it changes nothing, so the run goes on. *)
Theorem exitOnExpectedState_iff_completed (w : World) :
  (Completed w ->
     exitOnExpectedState w = (Normal tt, set_exitCode EXIT_SUCCESS w)) /\
  (~ Completed w -> exitOnExpectedState w = (Normal tt, w)) /\
  (exitCode w = None ->
     (exitCode (snd (exitOnExpectedState w)) = Some EXIT_SUCCESS <-> Completed w)).
Proof.
  pose proof (exitOnExpectedState_test w) as T.
  unfold exitOnExpectedState.
  destruct (_ && _) eqn:E.
  - assert (C : Completed w) by now apply T.
    split; [reflexivity|]. split; [intros N; now destruct N|].
    intros _. simpl. tauto.
  - assert (N : ~ Completed w) by (intros C; apply T in C; discriminate).
    split; [intros C; now destruct N|]. split; [reflexivity|].
    intros Hnone. simpl. rewrite Hnone. split; [discriminate | tauto].
Qed.

Lemma exitOnExpectedState_iff_completed_witness :
  Completed (set_currentHostState hostStateOff waitingForOff) /\
  exitOnExpectedState (set_currentHostState hostStateOff waitingForOff) =
    (Normal tt,
     set_exitCode EXIT_SUCCESS (set_currentHostState hostStateOff waitingForOff)).
Proof.
  assert (C : Completed (set_currentHostState hostStateOff waitingForOff)).
  { unfold Completed. simpl. repeat split; discriminate. }
  split; [exact C|].
  exact (proj1 (exitOnExpectedState_iff_completed _) C).
Defined.

Lemma chassisIface_neq_hostIface : String.eqb hostIface chassisIface = false.
Proof. reflexivity. Qed.

(** A chassis signal with the chassis state: store it, print it, check. *)
Lemma onPropertiesChanged_chassis (m : Signal) (v : string) (w : World) :
  sig_iface m = chassisIface ->
  sig_data m !! chassisState = Some v ->
  onPropertiesChanged m w =
  exitOnExpectedState
    (add_stdout ("Current Chassis State: " +:+ trimmed v +:+ nl)
                (set_currentChassisState v w)).
Proof.
  intros Hi Hd. unfold onPropertiesChanged. rewrite Hi, String.eqb_refl, Hd.
  unfold bind, modify, gets, lift, printf. simpl.
  now rewrite trimClassName_trimmed.
Qed.

(** A host signal with the host state: store it, print it, check. *)
Lemma onPropertiesChanged_host (m : Signal) (v : string) (w : World) :
  sig_iface m = hostIface ->
  sig_data m !! hostState = Some v ->
  onPropertiesChanged m w =
  exitOnExpectedState
    (add_stdout ("Current Host State: " +:+ trimmed v +:+ nl)
                (set_currentHostState v w)).
Proof.
  intros Hi Hd. unfold onPropertiesChanged.
  rewrite Hi, chassisIface_neq_hostIface, String.eqb_refl, Hd.
  unfold bind, modify, gets, lift, printf. simpl.
  now rewrite trimClassName_trimmed.
Qed.

(** Any other signal is dropped. *)
Lemma onPropertiesChanged_other (m : Signal) (w : World) :
  ~ carriesInterest m -> onPropertiesChanged m w = (Normal tt, w).
Proof.
  intros N. unfold onPropertiesChanged.
  destruct (String.eqb (sig_iface m) chassisIface) eqn:Ec.
  - apply String.eqb_eq in Ec.
    destruct (sig_data m !! chassisState) eqn:Hd; [|reflexivity].
    destruct N. left. split; [exact Ec | now rewrite Hd].
  - destruct (String.eqb (sig_iface m) hostIface) eqn:Eh; [|reflexivity].
    apply String.eqb_eq in Eh.
    destruct (sig_data m !! hostState) eqn:Hd; [|reflexivity].
    destruct N. right. split; [exact Eh | now rewrite Hd].
Qed.

(** C4: a notification that lacks the property watched on its interface
    ([CurrentPowerState] on the chassis interface, [CurrentHostState] on
    the host interface), or that is for any other interface, returns
    normally and leaves the whole world as it was: no stored state
    changes and no exit is requested, whatever the expected states are. *)
Theorem partial_notification_changes_nothing (m : Signal) (w : World) :
  (sig_iface m = chassisIface -> sig_data m !! chassisState = None) ->
  (sig_iface m = hostIface -> sig_data m !! hostState = None) ->
  onPropertiesChanged m w = (Normal tt, w).
Proof.
  intros Hc Hh. apply onPropertiesChanged_other.
  intros [[Hi [v Hv]]|[Hi [v Hv]]].
  - rewrite (Hc Hi) in Hv. discriminate.
  - rewrite (Hh Hi) in Hv. discriminate.
Qed.

Lemma partial_notification_changes_nothing_witness :
  onPropertiesChanged partialSignal (set_currentHostState hostStateOff waitingForOff)
  = (Normal tt, set_currentHostState hostStateOff waitingForOff).
Proof.
  apply partial_notification_changes_nothing.
  - intros _. reflexivity.
  - intros H. discriminate H.
Defined.

(** C10: a notification changes at most one of the two current states:
    one on the chassis interface leaves the current host state, one on
    the host interface leaves the current chassis state; and no event
    the loop dispatches (a notification or the timer) changes an
    expected state. *)
Theorem notification_updates_one_current_state (m : Signal) (w : World) :
  fst (onPropertiesChanged m w) = Normal tt /\
  (sig_iface m = chassisIface ->
     currentHostState (snd (onPropertiesChanged m w)) = currentHostState w) /\
  (sig_iface m = hostIface ->
     currentChassisState (snd (onPropertiesChanged m w)) = currentChassisState w) /\
  (currentChassisState (snd (onPropertiesChanged m w)) = currentChassisState w \/
   currentHostState (snd (onPropertiesChanged m w)) = currentHostState w) /\
  (forall ev : LoopEvent,
     expectedChassisState (snd (dispatch ev w)) = expectedChassisState w /\
     expectedHostState (snd (dispatch ev w)) = expectedHostState w).
Proof.
  assert (Hev : forall m0 : Signal,
            fst (onPropertiesChanged m0 w) = Normal tt /\
            expectedChassisState (snd (onPropertiesChanged m0 w))
              = expectedChassisState w /\
            expectedHostState (snd (onPropertiesChanged m0 w))
              = expectedHostState w /\
            (sig_iface m0 = chassisIface ->
               currentHostState (snd (onPropertiesChanged m0 w))
                 = currentHostState w) /\
            (sig_iface m0 = hostIface ->
               currentChassisState (snd (onPropertiesChanged m0 w))
                 = currentChassisState w)).
  { intros m0.
    destruct (String.eqb (sig_iface m0) chassisIface) eqn:Ec.
    - apply String.eqb_eq in Ec.
      assert (Hn : sig_iface m0 <> hostIface) by (rewrite Ec; discriminate).
      destruct (sig_data m0 !! chassisState) as [v|] eqn:Hd.
      + rewrite (onPropertiesChanged_chassis _ _ _ Ec Hd).
        destruct (exitOnExpectedState_cases
                    (add_stdout ("Current Chassis State: " +:+ trimmed v +:+ nl)
                                (set_currentChassisState v w))) as [->| ->];
          simpl; repeat split; tauto.
      + rewrite onPropertiesChanged_other; [simpl; repeat split; tauto|].
        intros [[_ [x Hx]]|[Hi _]]; [rewrite Hd in Hx; discriminate | tauto].
    - apply String.eqb_neq in Ec.
      destruct (String.eqb (sig_iface m0) hostIface) eqn:Eh.
      + apply String.eqb_eq in Eh.
        destruct (sig_data m0 !! hostState) as [v|] eqn:Hd.
        * rewrite (onPropertiesChanged_host _ _ _ Eh Hd).
          destruct (exitOnExpectedState_cases
                      (add_stdout ("Current Host State: " +:+ trimmed v +:+ nl)
                                  (set_currentHostState v w))) as [->| ->];
            simpl; repeat split; tauto.
        * rewrite onPropertiesChanged_other; [simpl; repeat split; tauto|].
          intros [[Hi _]|[_ [x Hx]]]; [tauto | rewrite Hd in Hx; discriminate].
      + apply String.eqb_neq in Eh.
        rewrite onPropertiesChanged_other; [simpl; repeat split; tauto|].
        intros [[Hi _]|[Hi _]]; tauto. }
  destruct (Hev m) as (H1 & _ & _ & H4 & H5).
  split; [exact H1|]. split; [exact H4|]. split; [exact H5|]. split.
  - destruct (String.eqb (sig_iface m) chassisIface) eqn:Ec.
    + apply String.eqb_eq in Ec. right. now apply H4.
    + destruct (String.eqb (sig_iface m) hostIface) eqn:Eh.
      * apply String.eqb_eq in Eh. left. now apply H5.
      * apply String.eqb_neq in Ec. apply String.eqb_neq in Eh.
        rewrite onPropertiesChanged_other; [now left|].
        intros [[Hi _]|[Hi _]]; tauto.
  - intros [m0|]; simpl.
    + destruct (Hev m0) as (_ & H2 & H3 & _). now split.
    + now split.
Qed.

Lemma notification_updates_one_current_state_witness :
  currentHostState
    (snd (onPropertiesChanged (chassisSignal chassisStateOn) waitingForOff))
  = currentHostState waitingForOff.
Proof.
  exact (proj1 (proj2 (notification_updates_one_current_state
                         (chassisSignal chassisStateOn) waitingForOff))
               eq_refl).
Defined.

(** ** The actions *)

Lemma owner_eq (bus : Bus) (path iface : string) (w : World) :
  owner bus path iface w =
  match answerGetObject bus (busLog w) path [iface] with
  | Answer services => default "" (first_key services)
  | Failure _ => ""
  end.
Proof.
  unfold owner. rewrite getService_eq.
  now destruct (answerGetObject bus (busLog w) path [iface]).
Qed.

Lemma getService_owner (bus : Bus) (path iface service : string) (w w1 : World) :
  getService bus path iface w = (Normal service, w1) ->
  service = owner bus path iface w.
Proof. intros H. unfold owner. now rewrite H. Qed.

(** The request an action sends when it does not take its shortcut: the
    expected pair is assigned, [setProperty] runs once, a line is printed. *)
Lemma invoke_proceeds (bus : Bus) (action : Callback) (c h g : string) (w : World) :
  expectedTarget action = Some (c, h) ->
  guardState action = Some g ->
  currentChassisState w <> g ->
  exists w' path iface property value,
    invoke bus action w = (Normal tt, w') /\
    expectedChassisState w' = c /\ expectedHostState w' = h /\
    exitCode w' = exitCode w /\
    currentChassisState w' = currentChassisState w /\
    currentHostState w' = currentHostState w /\
    busLog w' = (busLog w ++ GetObject path [iface] ::
                   (if String.eqb (owner bus path iface w) "" then []
                    else [PropertiesSet (owner bus path iface w)
                                        path iface property value]))%list /\
    (path, iface, property, value) =
      match action with
      | SwitchHostPowerOn => (hostPath, hostIface, hostTransition, hostTransitionOn)
      | SwitchChassisPowerOff =>
          (chassisPath, chassisIface, chassisTransition, chassisTransitionOff)
      | SwitchHostPowerOff => (hostPath, hostIface, hostTransition, hostTransitionOff)
      | _ => (hostPath, hostIface, hostTransition, hostTransitionReboot)
      end.
Proof.
  intros Ht Hg Hne.
  destruct action; simpl in Ht, Hg; try discriminate;
    injection Ht as <- <-; injection Hg as <-;
    apply String.eqb_neq in Hne; simpl;
    [ unfold switchHostPowerOn | unfold switchChassisPowerOff
    | unfold switchHostPowerOff | unfold resetHostPower ];
    unfold bind at 1; unfold gets; rewrite Hne; simpl;
    unfold bind, modify, printf;
    match goal with
    | |- context [setProperty bus ?p ?i ?pr ?v ?w0] =>
        destruct (setProperty_total bus p i pr v w0)
          as (w' & service & w1 & Hset & Hs & Hget & Hl);
        rewrite Hset;
        destruct Hs as (Hs1 & Hs2 & Hs3 & Hs4 & _ & Hs6 & _);
        apply getService_owner in Hget; rewrite owner_eq in Hget; simpl in Hget;
        rewrite <- (owner_eq bus p i w) in Hget; subst service;
        eexists _, p, i, pr, v
    end.
  all: split; [reflexivity|]; simpl.
  all: repeat split; assumption.
Qed.

(** The shortcut of an action whose guard state is the current one. *)
Lemma invoke_shortcut (bus : Bus) (action : Callback) (g : string) (w : World) :
  guardState action = Some g ->
  currentChassisState w = g ->
  exists line,
    invoke bus action w = (Normal tt, set_exitCode EXIT_SUCCESS (add_stdout line w)).
Proof.
  intros Hg Hc.
  destruct action; simpl in Hg; try discriminate; injection Hg as <-;
    apply String.eqb_eq in Hc; simpl;
    [ unfold switchHostPowerOn | unfold switchChassisPowerOff
    | unfold switchHostPowerOff | unfold resetHostPower ];
    unfold bind at 1; unfold gets; rewrite Hc; simpl;
    eexists; reflexivity.
Qed.

(** [status] prints both states and requests a successful exit. *)
Lemma showPowerStatus_eq (w : World) :
  showPowerStatus w =
  (Normal tt,
   set_exitCode 0
     (add_stdout ("Current Host state: " +:+ trimmed (currentHostState w) +:+ nl)
        (add_stdout ("Current Chassis state: "
                     +:+ trimmed (currentChassisState w) +:+ nl) w))).
Proof.
  unfold showPowerStatus, bind, gets, lift, printf, modify, systemEvent_exit.
  now rewrite !trimClassName_trimmed.
Qed.

(** Every action returns normally and either leaves the exit request
    alone or requests a successful exit. *)
Lemma invoke_outcome (bus : Bus) (action : Callback) (w : World) :
  exists w', invoke bus action w = (Normal tt, w') /\
             (exitCode w' = exitCode w \/ exitCode w' = Some EXIT_SUCCESS).
Proof.
  destruct (guardState action) as [g|] eqn:Hg.
  - destruct (String.eqb_spec (currentChassisState w) g) as [Hc|Hc].
    + destruct (invoke_shortcut bus action g w Hg Hc) as (line & H).
      eexists. split; [exact H|]. now right.
    + assert (Ht : exists c h, expectedTarget action = Some (c, h))
        by (destruct action; simpl in *; try discriminate; eauto).
      destruct Ht as (c & h & Ht).
      destruct (invoke_proceeds bus action c h g w Ht Hg Hc)
        as (w' & ? & ? & ? & ? & H & _ & _ & He & _).
      eexists. split; [exact H|]. now left.
  - destruct action; simpl in Hg; try discriminate.
    simpl. rewrite showPowerStatus_eq. eexists. split; [reflexivity|]. now right.
Qed.

(** C1, as the code has it: [on], [off] and [soft] take the shortcut when
    the current chassis state equals the chassis state they aim at;
    [reboot] aims at On and takes it when the current chassis state is
    Off.  The shortcut requests a successful exit, sends no call at all
    on the bus and assigns no expected state.  With the chassis On,
    [reboot] instead assigns its expected pair (On, Running), requests
    no exit and calls [setProperty] once for the host transition with
    value Reboot, which sends one [Set] call when the object mapper
    names a service and none otherwise. *)
Theorem guard_shortcut (bus : Bus) (action : Callback) (c h : string) (w : World) :
  expectedTarget action = Some (c, h) ->
  (currentChassisState w =
     match action with
     | ResetHostPower => chassisStateOff
     | _ => c
     end ->
   TakesShortcut bus action w) /\
  (action = ResetHostPower ->
   currentChassisState w = c ->
   exists w' new,
     invoke bus action w = (Normal tt, w') /\
     expectedChassisState w' = c /\
     expectedHostState w' = h /\
     exitCode w' = exitCode w /\
     busLog w' = (busLog w ++ new)%list /\
     setCalls new =
       if String.eqb (owner bus hostPath hostIface w) "" then []
       else [PropertiesSet (owner bus hostPath hostIface w)
                           hostPath hostIface hostTransition hostTransitionReboot]).
Proof.
  intros Ht. split.
  - intros Hc.
    assert (Hg : guardState action = Some (currentChassisState w)).
    { rewrite Hc. destruct action; simpl in *; try discriminate;
        injection Ht as <- _; reflexivity. }
    destruct (invoke_shortcut bus action _ w Hg eq_refl) as (line & H).
    eexists. split; [exact H|]. simpl. repeat split.
  - intros -> Hc. simpl in Ht. injection Ht as <- <-.
    assert (Hne : currentChassisState w <> chassisStateOff)
      by (rewrite Hc; discriminate).
    destruct (invoke_proceeds bus ResetHostPower _ _ _ w eq_refl eq_refl Hne)
      as (w' & p & i & pr & v & H & Hec & Heh & Hex & _ & _ & Hl & Hp).
    injection Hp as -> -> -> ->.
    eexists w', _. repeat (split; [eassumption|]).
    now destruct (String.eqb (owner bus hostPath hostIface w) "").
Qed.

Lemma guard_shortcut_witness :
  TakesShortcut (steadyBus chassisStateOn hostStateOn) SwitchHostPowerOn
                (seeded chassisStateOn hostStateOn) /\
  exists w' new,
    invoke (steadyBus chassisStateOn hostStateOn) ResetHostPower
           (seeded chassisStateOn hostStateOn) = (Normal tt, w') /\
    expectedChassisState w' = chassisStateOn /\
    expectedHostState w' = hostStateOn /\
    exitCode w' = None /\
    busLog w' = new /\
    setCalls new =
      [PropertiesSet "xyz.openbmc_project.State.Host" hostPath hostIface
                     hostTransition hostTransitionReboot].
Proof.
  split.
  - apply (proj1 (guard_shortcut (steadyBus chassisStateOn hostStateOn)
                    SwitchHostPowerOn chassisStateOn hostStateOn
                    (seeded chassisStateOn hostStateOn) eq_refl)).
    reflexivity.
  - exact (proj2 (guard_shortcut (steadyBus chassisStateOn hostStateOn)
                    ResetHostPower chassisStateOn hostStateOn
                    (seeded chassisStateOn hostStateOn) eq_refl)
                 eq_refl eq_refl).
Defined.

(** C1 as stated fails for [reboot]: with the chassis On, the state
    [reboot] aims at, it does not take the shortcut but assigns the
    expected states and goes on. *)
Lemma reboot_at_target_goes_on :
  ~ ShortcutAtTarget (steadyBus chassisStateOn hostStateOn).
Proof.
  intros H.
  destruct (H ResetHostPower chassisStateOn hostStateOn
              (seeded chassisStateOn hostStateOn) eq_refl eq_refl)
    as (w' & Heq & Hexit & _).
  vm_compute in Heq. injection Heq as <-. discriminate Hexit.
Qed.

(** C7, as the code has it: with the chassis not off, [off] and [soft]
    both assign (Off, Off) to the expected states and call [setProperty]
    once, [off] for the chassis transition and [soft] for the host
    transition, each with value Off.  That call sends exactly one [Set]
    call when the object mapper names a service for the object, and none
    when it names none. *)
Theorem off_and_soft_requests (bus : Bus) (w : World) :
  currentChassisState w <> chassisStateOff ->
  (exists w' new,
     switchChassisPowerOff bus w = (Normal tt, w') /\
     expectedChassisState w' = chassisStateOff /\
     expectedHostState w' = hostStateOff /\
     busLog w' = (busLog w ++ new)%list /\
     setCalls new =
       if String.eqb (owner bus chassisPath chassisIface w) "" then []
       else [PropertiesSet (owner bus chassisPath chassisIface w)
                           chassisPath chassisIface
                           chassisTransition chassisTransitionOff]) /\
  (exists w' new,
     switchHostPowerOff bus w = (Normal tt, w') /\
     expectedChassisState w' = chassisStateOff /\
     expectedHostState w' = hostStateOff /\
     busLog w' = (busLog w ++ new)%list /\
     setCalls new =
       if String.eqb (owner bus hostPath hostIface w) "" then []
       else [PropertiesSet (owner bus hostPath hostIface w)
                           hostPath hostIface
                           hostTransition hostTransitionOff]).
Proof.
  intros Hne. split.
  - destruct (invoke_proceeds bus SwitchChassisPowerOff _ _ _ w
                              eq_refl eq_refl Hne)
      as (w' & p & i & pr & v & H & Hc & Hh & _ & _ & _ & Hl & Hp).
    injection Hp as -> -> -> ->.
    eexists w', _. split; [exact H|]. split; [exact Hc|]. split; [exact Hh|].
    split; [exact Hl|].
    now destruct (String.eqb (owner bus chassisPath chassisIface w) "").
  - destruct (invoke_proceeds bus SwitchHostPowerOff _ _ _ w
                              eq_refl eq_refl Hne)
      as (w' & p & i & pr & v & H & Hc & Hh & _ & _ & _ & Hl & Hp).
    injection Hp as -> -> -> ->.
    eexists w', _. split; [exact H|]. split; [exact Hc|]. split; [exact Hh|].
    split; [exact Hl|].
    now destruct (String.eqb (owner bus hostPath hostIface w) "").
Qed.

Lemma off_and_soft_requests_witness :
  exists w' new,
    switchChassisPowerOff (steadyBus chassisStateOn hostStateOn)
                          (seeded chassisStateOn hostStateOn) = (Normal tt, w') /\
    expectedChassisState w' = chassisStateOff /\
    expectedHostState w' = hostStateOff /\
    busLog w' = new /\
    setCalls new =
      [PropertiesSet "xyz.openbmc_project.State.Chassis" chassisPath chassisIface
                     chassisTransition chassisTransitionOff].
Proof.
  refine (proj1 (off_and_soft_requests (steadyBus chassisStateOn hostStateOn)
                                       (seeded chassisStateOn hostStateOn) _)).
  discriminate.
Defined.

(** C7 as stated fails without an owner: with no service named for the
    chassis object, [off] sends no [Set] call although the chassis is
    not off. *)
Lemma off_without_owner_writes_nothing :
  ~ OffAndSoftAlwaysWrite ownerlessBus.
Proof.
  intros H.
  destruct (H (seeded "" "")) as [(w' & new & service & Heq & _ & _ & Hl & Hs) _].
  { discriminate. }
  vm_compute in Heq. injection Heq as <-.
  simpl in Hl. subst new. discriminate Hs.
Qed.

(** ** Dispatch of the command line *)

Lemma getAction_None (command : string) :
  getAction command = None <->
  ~ In command ["on"; "off"; "soft"; "reboot"; "status"].
Proof.
  unfold getAction.
  destruct (String.eqb_spec command "on") as [->|H1];
    [split; [discriminate | intros N; destruct N; simpl; tauto]|].
  destruct (String.eqb_spec command "off") as [->|H2];
    [split; [discriminate | intros N; destruct N; simpl; tauto]|].
  destruct (String.eqb_spec command "soft") as [->|H3];
    [split; [discriminate | intros N; destruct N; simpl; tauto]|].
  destruct (String.eqb_spec command "reboot") as [->|H4];
    [split; [discriminate | intros N; destruct N; simpl; tauto]|].
  destruct (String.eqb_spec command "status") as [->|H5];
    [split; [discriminate | intros N; destruct N; simpl; tauto]|].
  split; [|reflexivity].
  intros _ [E|[E|[E|[E|[E|[]]]]]]; congruence.
Qed.

Lemma showUsage_eq (app : string) (w : World) :
  showUsage app w =
  (Normal tt,
   add_stdout usageCommands (add_stdout ("Usage: " +:+ app +:+ " <command>" +:+ nl) w)).
Proof. reflexivity. Qed.

(** C6: each of the five commands is dispatched to its one action; every
    other string has no action, and then [main] prints the usage text and
    returns [EXIT_FAILURE] having done nothing else: no call on the bus
    and no start of the event loop, whatever events are waiting.  The
    same happens when the number of arguments is not one. *)
Theorem command_dispatch (bus : Bus) (app : string) (events : list LoopEvent)
        (w : World) :
  getAction "on" = Some SwitchHostPowerOn /\
  getAction "off" = Some SwitchChassisPowerOff /\
  getAction "soft" = Some SwitchHostPowerOff /\
  getAction "reboot" = Some ResetHostPower /\
  getAction "status" = Some ShowPowerStatus /\
  (forall command,
     ~ In command ["on"; "off"; "soft"; "reboot"; "status"] ->
     getAction command = None /\
     main bus app [command] events w =
       (Normal (Some EXIT_FAILURE),
        add_stdout usageCommands
          (add_stdout ("Usage: " +:+ app +:+ " <command>" +:+ nl) w))) /\
  (forall args,
     length args <> 1 ->
     main bus app args events w =
       (Normal (Some EXIT_FAILURE),
        add_stdout usageCommands
          (add_stdout ("Usage: " +:+ app +:+ " <command>" +:+ nl) w))) /\
  EXIT_FAILURE <> 0%Z /\
  loopStarted
    (add_stdout usageCommands
       (add_stdout ("Usage: " +:+ app +:+ " <command>" +:+ nl) w)) = loopStarted w /\
  busLog
    (add_stdout usageCommands
       (add_stdout ("Usage: " +:+ app +:+ " <command>" +:+ nl) w)) = busLog w.
Proof.
  repeat (split; [reflexivity|]).
  split.
  { intros command N. apply getAction_None in N. split; [exact N|].
    unfold main. rewrite N. unfold bind. now rewrite showUsage_eq. }
  split.
  { intros args N. unfold main.
    destruct args as [|a [|b rest]]; simpl in N; try lia;
      unfold bind; now rewrite showUsage_eq. }
  split; [discriminate|]. split; reflexivity.
Qed.

Lemma command_dispatch_witness :
  main (steadyBus chassisStateOn hostStateOn) "hostpwrctl" ["reset"]
       [TimerExpired] initialWorld =
  (Normal (Some EXIT_FAILURE),
   add_stdout usageCommands
     (add_stdout ("Usage: " +:+ "hostpwrctl" +:+ " <command>" +:+ nl) initialWorld)).
Proof.
  refine (proj2 (proj1 (proj2 (proj2 (proj2 (proj2 (proj2
            (command_dispatch (steadyBus chassisStateOn hostStateOn)
                              "hostpwrctl" [TimerExpired] initialWorld))))))
            "reset" _)).
  intros [E|[E|[E|[E|[E|[]]]]]]; discriminate E.
Defined.

(** ** The event loop *)

(** What a signal does, by whether it carries the watched property: it
    is dropped, or one current state is stored and the check runs. *)
Lemma onPropertiesChanged_cases (m : Signal) (w : World) :
  (~ carriesInterest m /\ onPropertiesChanged m w = (Normal tt, w)) \/
  (carriesInterest m /\
   exists w2, onPropertiesChanged m w = exitOnExpectedState w2 /\
              exitCode w2 = exitCode w).
Proof.
  destruct (String.eqb (sig_iface m) chassisIface) eqn:Ec.
  - apply String.eqb_eq in Ec.
    destruct (sig_data m !! chassisState) as [v|] eqn:Hd.
    + right. split; [left; split; [exact Ec | now rewrite Hd]|].
      eexists. split; [apply (onPropertiesChanged_chassis _ _ _ Ec Hd)|reflexivity].
    + left.
      assert (N : ~ carriesInterest m).
      { intros [[_ [x Hx]]|[Hi _]]; [rewrite Hd in Hx; discriminate|].
        rewrite Ec in Hi. discriminate. }
      split; [exact N | now apply onPropertiesChanged_other].
  - apply String.eqb_neq in Ec.
    destruct (String.eqb (sig_iface m) hostIface) eqn:Eh.
    + apply String.eqb_eq in Eh.
      destruct (sig_data m !! hostState) as [v|] eqn:Hd.
      * right. split; [right; split; [exact Eh | now rewrite Hd]|].
        eexists. split; [apply (onPropertiesChanged_host _ _ _ Eh Hd)|reflexivity].
      * left.
        assert (N : ~ carriesInterest m).
        { intros [[Hi _]|[_ [x Hx]]]; [tauto | rewrite Hd in Hx; discriminate]. }
        split; [exact N | now apply onPropertiesChanged_other].
    + apply String.eqb_neq in Eh. left.
      assert (N : ~ carriesInterest m) by (intros [[Hi _]|[Hi _]]; tauto).
      split; [exact N | now apply onPropertiesChanged_other].
Qed.

(** The check on a world without exit request: afterwards an exit is
    requested exactly when the world is completed, and it is a success. *)
Lemma exitOnExpectedState_exit (w2 : World) :
  exitCode w2 = None ->
  (Completed (snd (exitOnExpectedState w2)) /\
   exitOnExpectedState w2 = (Normal tt, set_exitCode EXIT_SUCCESS w2)) \/
  (~ Completed (snd (exitOnExpectedState w2)) /\
   exitOnExpectedState w2 = (Normal tt, w2)).
Proof.
  intros _. pose proof (exitOnExpectedState_test w2) as T.
  unfold exitOnExpectedState. destruct (_ && _).
  - left. split; [|reflexivity]. simpl. now apply T.
  - right. split; [|reflexivity]. simpl. intros C. apply T in C. discriminate.
Qed.

(** No handler throws. *)
Lemma dispatch_outcome (ev : LoopEvent) (w : World) :
  exists w', dispatch ev w = (Normal tt, w').
Proof.
  destruct ev as [m|]; simpl; [|eexists; reflexivity].
  destruct (onPropertiesChanged_cases m w) as [[_ ->]|[_ (w2 & -> & _)]];
    [eauto|].
  destruct (exitOnExpectedState_cases w2) as [-> | ->]; eauto.
Qed.

(** One step of the loop. *)
Lemma run_sources_cons (ev : LoopEvent) (rest : list LoopEvent) (w : World) :
  exitCode w = None ->
  run_sources (ev :: rest) w = run_sources rest (snd (dispatch ev w)).
Proof.
  intros H. simpl. rewrite H. unfold bind.
  destruct (dispatch_outcome ev w) as (w' & ->). reflexivity.
Qed.

Lemma run_sources_exited (events : list LoopEvent) (w : World) (code : Z) :
  exitCode w = Some code -> run_sources events w = (Normal (Some code), w).
Proof. intros H. destruct events; simpl; now rewrite H. Qed.

(** A loop still waiting has seen no exit request, before or after. *)
Lemma run_sources_waiting (events : list LoopEvent) (w w1 : World) :
  run_sources events w = (Normal None, w1) ->
  exitCode w = None /\ exitCode w1 = None.
Proof.
  revert w. induction events as [|ev rest IH]; intros w H.
  - simpl in H. destruct (exitCode w) eqn:E; [discriminate|].
    injection H as <-. auto.
  - destruct (exitCode w) as [code|] eqn:E.
    + rewrite (run_sources_exited _ _ _ E) in H. discriminate.
    + rewrite (run_sources_cons _ _ _ E) in H. split; [reflexivity|].
      exact (proj2 (IH _ H)).
Qed.

(** A waiting loop goes on with the events that follow. *)
Lemma run_sources_app (pre post : list LoopEvent) (w w1 : World) :
  run_sources pre w = (Normal None, w1) ->
  run_sources (pre ++ post) w = run_sources post w1.
Proof.
  revert w. induction pre as [|ev rest IH]; intros w H.
  - simpl in H. destruct (exitCode w) eqn:E; [discriminate|].
    now injection H as <-.
  - destruct (run_sources_waiting _ _ _ H) as [E _].
    rewrite (run_sources_cons _ _ _ E) in H.
    rewrite <- app_comm_cons, (run_sources_cons _ _ _ E). now apply IH.
Qed.

(** A loop that returns a code was waiting until the event whose handler
    requested the exit. *)
Lemma run_sources_split (events : list LoopEvent) (w w' : World) (code : Z) :
  exitCode w = None ->
  run_sources events w = (Normal (Some code), w') ->
  exists pre ev post w1,
    events = (pre ++ ev :: post)%list /\
    run_sources pre w = (Normal None, w1) /\
    dispatch ev w1 = (Normal tt, w') /\
    exitCode w' = Some code.
Proof.
  revert w. induction events as [|ev rest IH]; intros w E H.
  - simpl in H. rewrite E in H. discriminate.
  - rewrite (run_sources_cons _ _ _ E) in H.
    destruct (dispatch_outcome ev w) as (w2 & Hd). rewrite Hd in H. simpl in H.
    destruct (exitCode w2) as [c2|] eqn:E2.
    + rewrite (run_sources_exited _ _ _ E2) in H. injection H as <- <-.
      exists [], ev, rest, w. simpl. rewrite E. auto.
    + destruct (IH w2 E2 H) as (pre & ev' & post & w1 & -> & Hpre & Hev & Hc).
      exists (ev :: pre), ev', post, w1.
      split; [reflexivity|]. split; [|auto].
      rewrite (run_sources_cons _ _ _ E), Hd. exact Hpre.
Qed.

(** The loop is the deferred action followed by the sources. *)
Lemma systemEvent_loop_eq (bus : Bus) (action : Callback)
      (events : list LoopEvent) (w : World) :
  systemEvent_loop bus action events w =
  run_sources events (snd (invoke bus action (set_loopStarted w))).
Proof.
  unfold systemEvent_loop, bind, modify.
  destruct (invoke_outcome bus action (set_loopStarted w)) as (w' & -> & _).
  reflexivity.
Qed.

Lemma onTimer_eq (w : World) :
  onTimer w = (Normal tt, set_exitCode EXIT_FAILURE (add_stdout timeoutMessage w)).
Proof. reflexivity. Qed.

(** A run with a known command seeds the two current states and enters
    the loop with no exit requested and no expected state assigned. *)
Lemma main_enters_loop (bus : Bus) (app command : string) (action : Callback)
      (events : list LoopEvent) :
  getAction command = Some action ->
  exists w0,
    main bus app [command] events initialWorld
      = systemEvent_loop bus action events w0 /\
    exitCode w0 = None /\
    expectedChassisState w0 = "" /\ expectedHostState w0 = "" /\
    loopStarted w0 = false.
Proof.
  intros H. unfold main. rewrite H. unfold bind at 1. unfold bind at 1.
  unfold bind at 1.
  destruct (getProperty_total bus chassisPath chassisIface chassisState initialWorld)
    as (v1 & w1 & -> & S1).
  unfold modify at 1.
  unfold bind at 1.
  destruct (getProperty_total bus hostPath hostIface hostState
                              (set_currentChassisState v1 w1))
    as (v2 & w2 & -> & S2).
  unfold modify at 1.
  exists (set_currentHostState v2 w2). split; [reflexivity|].
  destruct S1 as (_ & A2 & _ & A4 & _ & A6 & A7).
  destruct S2 as (_ & B2 & _ & B4 & _ & B6 & B7).
  simpl in *. rewrite B2, B4, B6, B7, A2, A4, A6, A7. repeat split.
Qed.

(** A signal handled while the loop waits: an exit it requests is a
    success, requested by the check on a completed world. *)
Lemma onPropertiesChanged_exit (m : Signal) (w w' : World) (code : Z) :
  exitCode w = None ->
  onPropertiesChanged m w = (Normal tt, w') ->
  exitCode w' = Some code ->
  code = EXIT_SUCCESS /\ carriesInterest m /\ Completed w'.
Proof.
  intros E H Hc.
  destruct (onPropertiesChanged_cases m w) as [[_ H0]|[Hi (w2 & H2 & E2)]].
  - rewrite H0 in H. injection H as <-. rewrite E in Hc. discriminate.
  - rewrite E in E2. rewrite H2 in H.
    destruct (exitOnExpectedState_exit w2 E2) as [[C H3]|[_ H3]].
    + rewrite H in C. rewrite H3 in H. injection H as <-.
      simpl in Hc. injection Hc as <-. auto.
    + rewrite H3 in H. injection H as <-. rewrite E2 in Hc. discriminate.
Qed.

(** C5: when the timer is dispatched while the loop is still waiting (no
    exit requested by the deferred action or by an earlier event), the
    loop returns [EXIT_FAILURE], which is not zero, after printing the
    message that names the 30 seconds of [confirmationTime]; and a loop
    that returns anything but success returns [EXIT_FAILURE] from that
    timer callback: no action and no notification produces a failure. *)
Theorem timer_is_the_only_failure (bus : Bus) (action : Callback) (w : World) :
  timeoutMessage =
    "Unable to confirm operation success within timeout period (30 s)." +:+ nl /\
  confirmationTime = 30%Z /\
  EXIT_FAILURE <> 0%Z /\
  (forall pre post w1,
     systemEvent_loop bus action pre w = (Normal None, w1) ->
     systemEvent_loop bus action (pre ++ TimerExpired :: post) w =
       (Normal (Some EXIT_FAILURE),
        set_exitCode EXIT_FAILURE (add_stdout timeoutMessage w1))) /\
  (forall events code w',
     exitCode w = None ->
     systemEvent_loop bus action events w = (Normal (Some code), w') ->
     code <> EXIT_SUCCESS ->
     code = EXIT_FAILURE /\
     exists pre post w1,
       events = (pre ++ TimerExpired :: post)%list /\
       systemEvent_loop bus action pre w = (Normal None, w1) /\
       w' = set_exitCode EXIT_FAILURE (add_stdout timeoutMessage w1)).
Proof.
  split; [reflexivity|]. split; [reflexivity|]. split; [discriminate|]. split.
  - intros pre post w1 H. rewrite systemEvent_loop_eq in *.
    rewrite (run_sources_app _ _ _ _ H).
    destruct (run_sources_waiting _ _ _ H) as [_ E1].
    rewrite (run_sources_cons _ _ _ E1). simpl.
    now apply run_sources_exited.
  - intros events code w' E H Hne. rewrite systemEvent_loop_eq in H.
    destruct (invoke_outcome bus action (set_loopStarted w)) as (wa & Ha & [Ea|Ea]).
    + rewrite Ha in H. simpl in H, Ea. rewrite E in Ea.
      destruct (run_sources_split _ _ _ _ Ea H)
        as (pre & ev & post & w1 & -> & Hpre & Hev & Hc).
      destruct (run_sources_waiting _ _ _ Hpre) as [_ E1].
      destruct ev as [m|]; simpl in Hev.
      * destruct (onPropertiesChanged_exit _ _ _ _ E1 Hev Hc) as [-> _].
        now destruct Hne.
      * rewrite onTimer_eq in Hev. injection Hev as <-.
        simpl in Hc. injection Hc as <-. split; [reflexivity|].
        exists pre, post, w1. split; [reflexivity|]. split; [|reflexivity].
        rewrite systemEvent_loop_eq, Ha. exact Hpre.
    + rewrite Ha in H. simpl in H.
      rewrite (run_sources_exited _ _ _ Ea) in H. injection H as <- _.
      now destruct Hne.
Qed.

Lemma timer_is_the_only_failure_witness :
  systemEvent_loop (steadyBus chassisStateOn hostStateOn) SwitchHostPowerOff
                   ([PropertiesChanged partialSignal] ++ TimerExpired :: [])
                   (seeded chassisStateOn hostStateOn) =
  (Normal (Some EXIT_FAILURE),
   set_exitCode EXIT_FAILURE
     (add_stdout timeoutMessage
        (snd (systemEvent_loop (steadyBus chassisStateOn hostStateOn)
                SwitchHostPowerOff [PropertiesChanged partialSignal]
                (seeded chassisStateOn hostStateOn))))).
Proof.
  apply (proj1 (proj2 (proj2 (proj2
           (timer_is_the_only_failure (steadyBus chassisStateOn hostStateOn)
              SwitchHostPowerOff (seeded chassisStateOn hostStateOn)))))).
  reflexivity.
Defined.

(** C2, as the code has it: a loop that returns success was ended either
    by the deferred action itself (a guard shortcut or [status], with no
    notification at all), or by the handler of a notification that
    carries the watched property and after whose update both expected
    states are set and equal both current states.  Conversely such a
    notification, dispatched while the loop waits, ends it with success,
    and any other notification leaves it waiting: the check runs at
    notifications only. *)
Theorem success_exits (bus : Bus) (action : Callback) (w : World) :
  exitCode w = None ->
  (forall events w',
     systemEvent_loop bus action events w = (Normal (Some EXIT_SUCCESS), w') ->
     (invoke bus action (set_loopStarted w) = (Normal tt, w') /\
      exitCode w' = Some EXIT_SUCCESS) \/
     (exists pre m post w1,
        events = (pre ++ PropertiesChanged m :: post)%list /\
        systemEvent_loop bus action pre w = (Normal None, w1) /\
        onPropertiesChanged m w1 = (Normal tt, w') /\
        carriesInterest m /\ Completed w')) /\
  (forall pre m post w1,
     systemEvent_loop bus action pre w = (Normal None, w1) ->
     carriesInterest m ->
     Completed (snd (onPropertiesChanged m w1)) ->
     systemEvent_loop bus action (pre ++ PropertiesChanged m :: post) w =
       (Normal (Some EXIT_SUCCESS), snd (onPropertiesChanged m w1))) /\
  (forall pre m w1,
     systemEvent_loop bus action pre w = (Normal None, w1) ->
     ~ (carriesInterest m /\ Completed (snd (onPropertiesChanged m w1))) ->
     systemEvent_loop bus action (pre ++ [PropertiesChanged m]) w =
       (Normal None, snd (onPropertiesChanged m w1))).
Proof.
  intros E. split; [|split].
  - intros events w' H. rewrite systemEvent_loop_eq in H.
    destruct (invoke_outcome bus action (set_loopStarted w)) as (wa & Ha & [Ea|Ea]).
    + right. rewrite Ha in H. simpl in H, Ea. rewrite E in Ea.
      destruct (run_sources_split _ _ _ _ Ea H)
        as (pre & ev & post & w1 & -> & Hpre & Hev & Hc).
      destruct (run_sources_waiting _ _ _ Hpre) as [_ E1].
      destruct ev as [m|]; simpl in Hev.
      * destruct (onPropertiesChanged_exit _ _ _ _ E1 Hev Hc) as (_ & Hi & C).
        exists pre, m, post, w1. split; [reflexivity|].
        split; [rewrite systemEvent_loop_eq, Ha; exact Hpre|]. auto.
      * rewrite onTimer_eq in Hev. injection Hev as <-. discriminate Hc.
    + left. rewrite Ha in H. simpl in H.
      rewrite (run_sources_exited _ _ _ Ea) in H. injection H as <-.
      split; [exact Ha | exact Ea].
  - intros pre m post w1 H Hi C. rewrite systemEvent_loop_eq in *.
    rewrite (run_sources_app _ _ _ _ H).
    destruct (run_sources_waiting _ _ _ H) as [_ E1].
    rewrite (run_sources_cons _ _ _ E1). simpl.
    apply run_sources_exited.
    destruct (onPropertiesChanged_cases m w1) as [[N _]|[_ (w2 & H2 & E2)]];
      [now destruct N|].
    rewrite E1 in E2. rewrite H2 in *.
    destruct (exitOnExpectedState_exit w2 E2) as [[_ H3]|[N _]];
      [now rewrite H3 | now destruct N].
  - intros pre m w1 H N. rewrite systemEvent_loop_eq in *.
    rewrite (run_sources_app _ _ _ _ H).
    destruct (run_sources_waiting _ _ _ H) as [_ E1].
    rewrite (run_sources_cons _ _ _ E1). simpl.
    destruct (onPropertiesChanged_cases m w1) as [[_ H0]|[Hi (w2 & H2 & E2)]].
    + rewrite H0. simpl. now rewrite E1.
    + rewrite E1 in E2. rewrite H2 in *.
      destruct (exitOnExpectedState_exit w2 E2) as [[C _]|[_ H3]];
        [destruct N; now split|].
      rewrite H3. simpl. now rewrite E2.
Qed.

Lemma success_exits_witness :
  systemEvent_loop (steadyBus chassisStateOff hostStateOff) SwitchHostPowerOn
    ([PropertiesChanged (chassisSignal chassisStateOn)]
       ++ PropertiesChanged (hostSignal hostStateOn) :: [TimerExpired])
    (seeded chassisStateOff hostStateOff) =
  (Normal (Some EXIT_SUCCESS),
   snd (onPropertiesChanged (hostSignal hostStateOn)
          (snd (systemEvent_loop (steadyBus chassisStateOff hostStateOff)
                  SwitchHostPowerOn
                  [PropertiesChanged (chassisSignal chassisStateOn)]
                  (seeded chassisStateOff hostStateOff))))).
Proof.
  apply (proj1 (proj2 (success_exits (steadyBus chassisStateOff hostStateOff)
                         SwitchHostPowerOn (seeded chassisStateOff hostStateOff)
                         eq_refl))).
  - reflexivity.
  - right. split; [reflexivity|]. exists hostStateOn. reflexivity.
  - vm_compute. repeat split; discriminate.
Defined.

(** C2 as stated fails for [status]: it ends the run with success
    although no notification was ever dispatched and no expected state
    was assigned. *)
Lemma status_succeeds_without_notification :
  ~ SuccessOnlyAtMatchingNotification (steadyBus chassisStateOff hostStateOff).
Proof.
  intros H.
  destruct (H "hostpwrctl" ["status"] []
              (snd (main (steadyBus chassisStateOff hostStateOff)
                         "hostpwrctl" ["status"] [] initialWorld)) eq_refl)
    as (pre & m & post & w1 & Hev & _).
  destruct pre; discriminate Hev.
Qed.

(** ** The scenarios of the specification, run on the model *)

(** [status] with both states Off: both are printed, exit 0, no wait. *)
Example scenario_status :
  let r := main (steadyBus chassisStateOff hostStateOff) "hostpwrctl" ["status"]
                [TimerExpired] initialWorld in
  fst r = Normal (Some 0%Z) /\
  stdout (snd r) = ["Current Chassis state: Off" +:+ nl;
                    "Current Host state: Off" +:+ nl].
Proof. split; reflexivity. Qed.

(** [on] with the chassis Off: the target (On, Running) is assigned, the
    host transition On is written, and the two notifications end the run
    with exit 0 before the timer is looked at. *)
Example scenario_power_on :
  let r := main (steadyBus chassisStateOff hostStateOff) "hostpwrctl" ["on"]
                [PropertiesChanged (chassisSignal chassisStateOn);
                 PropertiesChanged (hostSignal hostStateOn);
                 TimerExpired] initialWorld in
  fst r = Normal (Some 0%Z) /\
  setCalls (busLog (snd r)) =
    [PropertiesSet "xyz.openbmc_project.State.Host" hostPath hostIface
                   hostTransition hostTransitionOn] /\
  stdout (snd r) =
    ["Power up signal was sent to host, waiting for system start." +:+ nl;
     "Current Chassis State: On" +:+ nl;
     "Current Host State: Running" +:+ nl].
Proof. repeat split; reflexivity. Qed.

(** [reboot] with the chassis Off: refused with exit 0, nothing written. *)
Example scenario_reboot_refused :
  let r := main (steadyBus chassisStateOff hostStateOff) "hostpwrctl" ["reboot"]
                [] initialWorld in
  fst r = Normal (Some 0%Z) /\
  setCalls (busLog (snd r)) = [] /\
  stdout (snd r) = ["Chassis is off, reboot is impossible." +:+ nl].
Proof. repeat split; reflexivity. Qed.

(** [soft] with no notification before the timer: exit 1 after the
    message that names the 30 seconds. *)
Example scenario_soft_timeout :
  let r := main (steadyBus chassisStateOn hostStateOn) "hostpwrctl" ["soft"]
                [TimerExpired] initialWorld in
  fst r = Normal (Some 1%Z) /\
  stdout (snd r) =
    ["Shutdown signal was sent to host, waiting for system down." +:+ nl;
     timeoutMessage].
Proof. split; reflexivity. Qed.

(** * Further properties of the code *)

(** ** The order of [std::string] and the service [getService] picks *)

Lemma ascii_compare_trans (a b c : Ascii.ascii) :
  Ascii.compare a b = Lt -> Ascii.compare b c = Lt -> Ascii.compare a c = Lt.
Proof.
  unfold Ascii.compare. rewrite !N.compare_lt_iff. apply N.lt_trans.
Qed.

Lemma string_compare_refl (s : string) : String.compare s s = Eq.
Proof.
  induction s as [|a s IH]; simpl; [reflexivity|].
  unfold Ascii.compare. now rewrite N.compare_refl.
Qed.

Lemma string_compare_trans (s1 s2 s3 : string) :
  String.compare s1 s2 = Lt -> String.compare s2 s3 = Lt ->
  String.compare s1 s3 = Lt.
Proof.
  revert s2 s3. induction s1 as [|a s1 IH]; intros [|b s2] [|c s3];
    simpl; try discriminate; auto.
  destruct (Ascii.compare a b) eqn:Eab; try discriminate;
    destruct (Ascii.compare b c) eqn:Ebc; try discriminate; intros H1 H2.
  - apply Ascii.compare_eq_iff in Eab, Ebc. subst.
    unfold Ascii.compare. rewrite N.compare_refl. eauto.
  - apply Ascii.compare_eq_iff in Eab. subst. now rewrite Ebc.
  - apply Ascii.compare_eq_iff in Ebc. subst. now rewrite Eab.
  - now rewrite (ascii_compare_trans _ _ _ Eab Ebc).
Qed.

(** Not below, twice, is not below. *)
Lemma string_ltb_false_trans (s1 s2 s3 : string) :
  String.ltb s2 s1 = false -> String.ltb s3 s2 = false ->
  String.ltb s3 s1 = false.
Proof.
  unfold String.ltb. intros H12 H23.
  destruct (String.compare s3 s1) eqn:E31; try reflexivity. exfalso.
  destruct (String.compare s2 s1) eqn:E21; try discriminate.
  - apply String.compare_eq_iff in E21. subst. now rewrite E31 in H23.
  - destruct (String.compare s3 s2) eqn:E32; try discriminate.
    + apply String.compare_eq_iff in E32. subst. rewrite E31 in E21. discriminate.
    + rewrite String.compare_antisym in E21, E32.
      destruct (String.compare s1 s2) eqn:E12; try discriminate.
      destruct (String.compare s2 s3) eqn:E23; try discriminate.
      pose proof (string_compare_trans _ _ _ E12 E23) as E13.
      rewrite String.compare_antisym, E13 in E31. discriminate.
Qed.

Lemma first_key_least (services : list (string * list string)) (service : string) :
  first_key services = Some service ->
  In service (map fst services) /\
  forall k, In k (map fst services) -> String.ltb k service = false.
Proof.
  revert service. induction services as [|[k0 v0] rest IH]; intros service H.
  - discriminate.
  - simpl in H. destruct (first_key rest) as [k'|] eqn:R.
    + destruct (IH k' eq_refl) as [Hin Hmin].
      destruct (String.ltb k' k0) eqn:L; injection H as <-.
      * split; [right; exact Hin|]. intros k [<-|Hk]; [|now apply Hmin].
        simpl. unfold String.ltb in L |- *. rewrite String.compare_antisym.
        destruct (String.compare k' k0); try discriminate. reflexivity.
      * split; [now left|]. intros k [<-|Hk].
        -- unfold String.ltb. now rewrite string_compare_refl.
        -- apply (string_ltb_false_trans _ k'); [exact L | now apply Hmin].
    + injection H as <-. split; [now left|].
      destruct rest as [|[k1 v1] rest']; [|simpl in R;
        destruct (first_key rest'); [destruct (String.ltb _ _)|]; discriminate].
      intros k [<-|[]]. unfold String.ltb. now rewrite string_compare_refl.
Qed.

Lemma first_key_None (services : list (string * list string)) :
  first_key services = None <-> services = [].
Proof.
  split; [|now intros ->].
  destruct services as [|[k v] rest]; [reflexivity|]. simpl.
  destruct (first_key rest); [destruct (String.ltb _ _)|]; discriminate.
Qed.

(** X1: of the services the object mapper answers with, [getService]
    returns the least name in the order of [std::string], whatever the
    order of the reply; an empty reply gives the empty string; and one
    [GetObject] call for the one interface is all it sends. *)
Theorem getService_least_service (bus : Bus) (path iface : string) (w : World)
        (services : list (string * list string)) :
  answerGetObject bus (busLog w) path [iface] = Answer services ->
  busLog (snd (getService bus path iface w))
    = (busLog w ++ [GetObject path [iface]])%list /\
  stderr (snd (getService bus path iface w)) = stderr w /\
  (services = [] -> fst (getService bus path iface w) = Normal "") /\
  (services <> [] ->
   exists service,
     fst (getService bus path iface w) = Normal service /\
     In service (map fst services) /\
     forall k, In k (map fst services) -> String.ltb k service = false).
Proof.
  intros H. rewrite getService_eq, H. simpl.
  split; [reflexivity|]. split; [reflexivity|]. split.
  - now intros ->.
  - intros Hne. destruct (first_key services) as [service|] eqn:F.
    + exists service. split; [reflexivity|]. now apply first_key_least.
    + apply first_key_None in F. contradiction.
Qed.

Lemma getService_least_service_witness :
  exists service,
    fst (getService unsortedBus hostPath hostIface initialWorld) = Normal service /\
    In service ["org.b"; "org.a"; "org.c"] /\
    forall k, In k ["org.b"; "org.a"; "org.c"] -> String.ltb k service = false.
Proof.
  refine (proj2 (proj2 (proj2
    (getService_least_service unsortedBus hostPath hostIface initialWorld
       [("org.b", []); ("org.a", []); ("org.c", [])] eq_refl))) _).
  discriminate.
Defined.

(** X2: [getProperty] always returns; it sends the lookup and, when a
    service was named, one [Get] call to that service for the same
    path, interface and property; it never sends a [Set] call; and a
    non-empty result is the value the peer answered to that [Get]. *)
Theorem getProperty_calls_and_value (bus : Bus) (path iface property : string)
        (w : World) :
  exists v w',
    getProperty bus path iface property w = (Normal v, w') /\
    busLog w' =
      (busLog w ++ GetObject path [iface] ::
         (if String.eqb (owner bus path iface w) "" then []
          else [PropertiesGet (owner bus path iface w) path iface property]))%list /\
    setCalls (busLog w') = setCalls (busLog w) /\
    (v = "" \/
     answerGet bus (busLog w ++ [GetObject path [iface]])%list
               (owner bus path iface w) path iface property = Answer v).
Proof.
  destruct (getService_total bus path iface w) as (s & w1 & errs & H & _ & Hl & _).
  pose proof (getService_owner _ _ _ _ _ _ H) as Ho. subst s.
  rewrite (getProperty_after_lookup _ _ _ _ _ _ _ H).
  destruct (String.eqb (owner bus path iface w) "") eqn:E.
  - exists "", w1. split; [reflexivity|]. split; [exact Hl|].
    split; [|now left]. rewrite Hl. unfold setCalls.
    rewrite List.filter_app. simpl. now rewrite app_nil_r.
  - rewrite <- Hl.
    destruct (answerGet bus (busLog w1) (owner bus path iface w) path iface property)
      as [v|what]; eexists _, _; (split; [reflexivity|]); simpl; rewrite Hl;
      rewrite <- app_assoc; (split; [reflexivity|]);
      (split; [unfold setCalls; rewrite List.filter_app; simpl;
               now rewrite app_nil_r|]); auto.
Qed.

(** ** More on [trimClassName] *)

Lemma string_drop_suffix (pos : nat) (value : string) :
  exists before, value = before +:+ string_drop pos value.
Proof.
  revert pos. induction value as [|a rest IH]; intros [|pos]; simpl.
  - now exists "".
  - now exists "".
  - now exists "".
  - destruct (IH pos) as (before & Hb). exists (String a before).
    change (String a rest = String a (before +:+ string_drop pos rest)).
    f_equal. exact Hb.
Qed.

Lemma rfind_None_NoDot (value : string) :
  rfind dot value = None -> NoDot value.
Proof. intros H j. now apply rfind_None_get. Qed.

Lemma rfind_trailing (c : Ascii.ascii) (s : string) :
  rfind c (s +:+ String c "") = Some (String.length s).
Proof.
  induction s as [|a s IH]; simpl.
  - now rewrite Ascii.eqb_refl.
  - now rewrite IH.
Qed.

Lemma string_drop_all (value : string) :
  string_drop (String.length value) value = "".
Proof. induction value as [|a rest IH]; simpl; auto. Qed.

Lemma length_trailing (c : Ascii.ascii) (s : string) :
  String.length (s +:+ String c "") = S (String.length s).
Proof. induction s as [|a s IH]; simpl; auto. Qed.

(** X3: what [trimClassName] returns is always a suffix of the value,
    and either the value itself or a string without any dot. *)
Theorem trimClassName_suffix_without_dot (value : string) :
  exists r before,
    trimClassName value = Normal r /\
    value = before +:+ r /\
    (r = value \/ NoDot r).
Proof.
  rewrite trimClassName_trimmed. unfold trimmed.
  destruct (rfind dot value) as [[|last']|] eqn:R.
  - exists value, "". auto.
  - destruct (string_drop_suffix (S (S last')) value) as (before & Hb).
    exists (string_drop (S (S last')) value), before.
    split; [reflexivity|]. split; [exact Hb|]. right.
    apply rfind_None_NoDot. now apply rfind_drop.
  - exists value, "". auto.
Qed.

(** X4: a value made of at least one character followed by a final dot
    is trimmed to the empty string, while a value whose only dot is its
    first character is returned whole, dot included; the latter covers
    the value that is a single dot. *)
Theorem trimClassName_edge_dots (s : string) :
  (s <> "" -> trimClassName (s +:+ ".") = Normal "") /\
  (NoDot s -> trimClassName ("." +:+ s) = Normal ("." +:+ s)).
Proof.
  split.
  - intros Hne. rewrite trimClassName_trimmed. unfold trimmed.
    change "." with (String dot ""). rewrite rfind_trailing.
    destruct s as [|a s']; [contradiction|].
    change (String.length (String a s')) with (S (String.length s')).
    cbv beta iota. f_equal.
    replace (S (S (String.length s')))
      with (String.length (String a s' +:+ String dot ""))
      by (rewrite length_trailing; reflexivity).
    apply string_drop_all.
  - intros Hn. apply rfind_NoDot in Hn.
    change ("." +:+ s) with (String dot s).
    unfold trimClassName. simpl rfind. now rewrite Hn.
Qed.

Lemma trimClassName_edge_dots_witness :
  trimClassName "xyz.State." = Normal "" /\
  trimClassName ".hidden" = Normal ".hidden" /\
  trimClassName "." = Normal ".".
Proof.
  split; [|split].
  - apply (proj1 (trimClassName_edge_dots "xyz.State")). discriminate.
  - apply (proj2 (trimClassName_edge_dots "hidden")).
    intros j. do 6 (destruct j as [|j]; [discriminate|]).
    destruct j; discriminate.
  - apply (proj2 (trimClassName_edge_dots "")).
    intros j. destruct j; discriminate.
Defined.

(** ** More on the actions *)

(** Everything an action leaves behind, except the logs of the bus, is
    fixed by the action and the world it starts from. *)
Lemma invoke_effect (action : Callback) (w : World) :
  exists lines code ec eh,
    lines <> [] /\
    forall bus, exists w',
      invoke bus action w = (Normal tt, w') /\
      stdout w' = (stdout w ++ lines)%list /\
      exitCode w' = code /\
      expectedChassisState w' = ec /\
      expectedHostState w' = eh /\
      currentChassisState w' = currentChassisState w /\
      currentHostState w' = currentHostState w /\
      loopStarted w' = loopStarted w.
Proof.
  destruct action.
  5: { eexists [_; _], _, _, _. split; [discriminate|].
       intros bus. eexists. split; [apply showPowerStatus_eq|].
       simpl. rewrite <- app_assoc. repeat split. }
  all: simpl;
    cbv delta [switchHostPowerOn switchChassisPowerOff
               switchHostPowerOff resetHostPower];
    unfold bind at 1; unfold gets;
    match goal with
    | |- context [String.eqb (currentChassisState ?x) ?g] =>
        destruct (String.eqb (currentChassisState x) g)
    end; simpl;
    [ eexists [_], _, _, _; split; [discriminate|];
      intros bus; eexists; split; [reflexivity|]; simpl; repeat split
    | eexists [_], _, _, _; split; [discriminate|];
      intros bus; unfold bind, modify, printf;
      match goal with
      | |- context [setProperty bus ?p ?i ?pr ?v ?w0] =>
          destruct (setProperty_total bus p i pr v w0)
            as (w' & service & w1 & Hset & Hs & _);
          rewrite Hset;
          destruct Hs as (Hs1 & Hs2 & Hs3 & Hs4 & Hs5 & Hs6 & Hs7)
      end;
      eexists; split; [reflexivity|];
      simpl in *; rewrite Hs1, Hs2, Hs3, Hs4, Hs5, Hs6, Hs7;
      repeat split ].
Qed.

(** X5: with the chassis not On, [on] assigns (On, Running) to the
    expected states, and with the chassis not Off so does [reboot]; each
    calls [setProperty] once for the host transition, with value On and
    Reboot, which sends one [Set] call when the object mapper names a
    service and none otherwise; neither requests an exit. *)
Theorem on_and_reboot_requests (bus : Bus) (w : World) :
  (currentChassisState w <> chassisStateOn ->
   exists w' new,
     switchHostPowerOn bus w = (Normal tt, w') /\
     expectedChassisState w' = chassisStateOn /\
     expectedHostState w' = hostStateOn /\
     exitCode w' = exitCode w /\
     busLog w' = (busLog w ++ new)%list /\
     setCalls new =
       if String.eqb (owner bus hostPath hostIface w) "" then []
       else [PropertiesSet (owner bus hostPath hostIface w)
                           hostPath hostIface hostTransition hostTransitionOn]) /\
  (currentChassisState w <> chassisStateOff ->
   exists w' new,
     resetHostPower bus w = (Normal tt, w') /\
     expectedChassisState w' = chassisStateOn /\
     expectedHostState w' = hostStateOn /\
     exitCode w' = exitCode w /\
     busLog w' = (busLog w ++ new)%list /\
     setCalls new =
       if String.eqb (owner bus hostPath hostIface w) "" then []
       else [PropertiesSet (owner bus hostPath hostIface w)
                           hostPath hostIface hostTransition hostTransitionReboot]).
Proof.
  split; intros Hne.
  - destruct (invoke_proceeds bus SwitchHostPowerOn _ _ _ w eq_refl eq_refl Hne)
      as (w' & p & i & pr & v & H & Hc & Hh & He & _ & _ & Hl & Hp).
    injection Hp as -> -> -> ->.
    eexists w', _. repeat (split; [eassumption|]).
    now destruct (String.eqb (owner bus hostPath hostIface w) "").
  - destruct (invoke_proceeds bus ResetHostPower _ _ _ w eq_refl eq_refl Hne)
      as (w' & p & i & pr & v & H & Hc & Hh & He & _ & _ & Hl & Hp).
    injection Hp as -> -> -> ->.
    eexists w', _. repeat (split; [eassumption|]).
    now destruct (String.eqb (owner bus hostPath hostIface w) "").
Qed.

Lemma on_and_reboot_requests_witness :
  exists w' new,
    resetHostPower (steadyBus chassisStateOn hostStateOn)
                   (seeded chassisStateOn hostStateOn) = (Normal tt, w') /\
    expectedChassisState w' = chassisStateOn /\
    expectedHostState w' = hostStateOn /\
    exitCode w' = None /\
    busLog w' = new /\
    setCalls new =
      [PropertiesSet "xyz.openbmc_project.State.Host" hostPath hostIface
                     hostTransition hostTransitionReboot].
Proof.
  refine (proj2 (on_and_reboot_requests (steadyBus chassisStateOn hostStateOn)
                                        (seeded chassisStateOn hostStateOn)) _).
  discriminate.
Defined.

(** X6: what an action prints, whether it requests an exit, and the
    expected states it leaves do not depend on the bus: an action that
    goes on prints that its signal was sent also when the lookup or the
    [Set] call failed. *)
Theorem action_outcome_ignores_bus (bus1 bus2 : Bus) (action : Callback) (w : World) :
  stdout (snd (invoke bus1 action w)) = stdout (snd (invoke bus2 action w)) /\
  exitCode (snd (invoke bus1 action w)) = exitCode (snd (invoke bus2 action w)) /\
  expectedChassisState (snd (invoke bus1 action w))
    = expectedChassisState (snd (invoke bus2 action w)) /\
  expectedHostState (snd (invoke bus1 action w))
    = expectedHostState (snd (invoke bus2 action w)) /\
  length (stdout w) < length (stdout (snd (invoke bus1 action w))).
Proof.
  destruct (invoke_effect action w) as (lines & code & ec & eh & Hne & H).
  destruct (H bus1) as (w1 & -> & A1 & A2 & A3 & A4 & _).
  destruct (H bus2) as (w2 & -> & B1 & B2 & B3 & B4 & _).
  simpl. rewrite A1, A2, A3, A4, B1, B2, B3, B4. repeat split.
  rewrite length_app. destruct lines; [contradiction|]. simpl. lia.
Qed.

(** X7: no action throws, and none changes a current state: the current
    states are written by the seeding in [main] and by notifications
    only. *)
Theorem actions_keep_current_states (bus : Bus) (action : Callback) (w : World) :
  fst (invoke bus action w) = Normal tt /\
  currentChassisState (snd (invoke bus action w)) = currentChassisState w /\
  currentHostState (snd (invoke bus action w)) = currentHostState w.
Proof.
  destruct (invoke_effect action w) as (lines & code & ec & eh & _ & H).
  destruct (H bus) as (w' & -> & _ & _ & _ & _ & A5 & A6 & _). auto.
Qed.

(** X8: [reboot] requested while chassis and host are already On and
    Running leaves a world in which the expected states already equal
    the current ones, yet no exit is requested: the loop waits until a
    notification makes the check run. *)
Theorem reboot_of_running_system_waits (bus : Bus) (w : World) :
  currentChassisState w = chassisStateOn ->
  currentHostState w = hostStateOn ->
  exitCode w = None ->
  Completed (snd (resetHostPower bus w)) /\
  exitCode (snd (resetHostPower bus w)) = None /\
  fst (systemEvent_loop bus ResetHostPower [] w) = Normal None /\
  fst (systemEvent_loop bus ResetHostPower [TimerExpired] w)
    = Normal (Some EXIT_FAILURE).
Proof.
  intros Hc Hh He.
  assert (Hne : forall w0, currentChassisState w0 = chassisStateOn ->
                           currentChassisState w0 <> chassisStateOff)
    by (intros w0 ->; discriminate).
  assert (P : forall w0, currentChassisState w0 = chassisStateOn ->
                currentHostState w0 = hostStateOn -> exitCode w0 = None ->
                Completed (snd (resetHostPower bus w0)) /\
                exitCode (snd (resetHostPower bus w0)) = None).
  { intros w0 Hc0 Hh0 He0.
    destruct (invoke_proceeds bus ResetHostPower _ _ _ w0 eq_refl eq_refl (Hne _ Hc0))
      as (w' & p & i & pr & v & H & Hec & Heh & Hex & Hcc & Hch & _).
    simpl in H. rewrite H. simpl. split; [|congruence].
    unfold Completed. rewrite Hec, Heh, Hcc, Hch, Hc0, Hh0.
    repeat split; discriminate. }
  split; [apply (P w Hc Hh He)|]. split; [apply (P w Hc Hh He)|].
  destruct (P (set_loopStarted w) Hc Hh He) as [_ E].
  rewrite !systemEvent_loop_eq. simpl invoke.
  split.
  - simpl. now rewrite E.
  - rewrite (run_sources_cons _ _ _ E). reflexivity.
Qed.

Lemma reboot_of_running_system_waits_witness :
  fst (systemEvent_loop (steadyBus chassisStateOn hostStateOn) ResetHostPower []
                        (seeded chassisStateOn hostStateOn)) = Normal None.
Proof.
  exact (proj1 (proj2 (proj2
    (reboot_of_running_system_waits (steadyBus chassisStateOn hostStateOn)
       (seeded chassisStateOn hostStateOn) eq_refl eq_refl eq_refl)))).
Defined.

(** ** More on the loop and on whole runs *)

(** What a signal handler may touch: a current state, stdout, and the
    exit request, which it can only turn into a success. *)
Lemma onPropertiesChanged_frame (m : Signal) (w : World) :
  exists w',
    onPropertiesChanged m w = (Normal tt, w') /\
    busLog w' = busLog w /\ stderr w' = stderr w /\
    loopStarted w' = loopStarted w /\
    expectedChassisState w' = expectedChassisState w /\
    expectedHostState w' = expectedHostState w /\
    (exitCode w' = exitCode w \/ exitCode w' = Some EXIT_SUCCESS).
Proof.
  destruct (String.eqb (sig_iface m) chassisIface) eqn:Ec.
  - apply String.eqb_eq in Ec.
    destruct (sig_data m !! chassisState) as [v|] eqn:Hd.
    + rewrite (onPropertiesChanged_chassis _ _ _ Ec Hd).
      destruct (exitOnExpectedState_cases
                  (add_stdout ("Current Chassis State: " +:+ trimmed v +:+ nl)
                              (set_currentChassisState v w))) as [->| ->];
        eexists; (split; [reflexivity|]); simpl; repeat split; auto.
    + rewrite onPropertiesChanged_other; [exists w; repeat split; auto|].
      intros [[_ [x Hx]]|[Hi _]]; [rewrite Hd in Hx; discriminate|].
      rewrite Ec in Hi. discriminate.
  - apply String.eqb_neq in Ec.
    destruct (String.eqb (sig_iface m) hostIface) eqn:Eh.
    + apply String.eqb_eq in Eh.
      destruct (sig_data m !! hostState) as [v|] eqn:Hd.
      * rewrite (onPropertiesChanged_host _ _ _ Eh Hd).
        destruct (exitOnExpectedState_cases
                    (add_stdout ("Current Host State: " +:+ trimmed v +:+ nl)
                                (set_currentHostState v w))) as [->| ->];
          eexists; (split; [reflexivity|]); simpl; repeat split; auto.
      * rewrite onPropertiesChanged_other; [exists w; repeat split; auto|].
        intros [[Hi _]|[_ [x Hx]]]; [tauto | rewrite Hd in Hx; discriminate].
    + apply String.eqb_neq in Eh.
      rewrite onPropertiesChanged_other; [exists w; repeat split; auto|].
      intros [[Hi _]|[Hi _]]; tauto.
Qed.

(** The same for any event of the loop; the timer requests a failure. *)
Lemma dispatch_frame (ev : LoopEvent) (w : World) :
  exists w',
    dispatch ev w = (Normal tt, w') /\
    busLog w' = busLog w /\ stderr w' = stderr w /\
    loopStarted w' = loopStarted w /\
    expectedChassisState w' = expectedChassisState w /\
    expectedHostState w' = expectedHostState w /\
    (exitCode w' = exitCode w \/ exitCode w' = Some EXIT_SUCCESS
     \/ exitCode w' = Some EXIT_FAILURE).
Proof.
  destruct ev as [m|]; simpl.
  - destruct (onPropertiesChanged_frame m w)
      as (w' & H & ? & ? & ? & ? & ? & [E|E]); exists w'; repeat split; auto.
  - rewrite onTimer_eq. eexists. split; [reflexivity|]. simpl.
    repeat split; auto.
Qed.

(** The sources of the loop never throw, make no call on the bus, write
    nothing to stderr and assign no expected state; what the loop
    returns is the exit request it ends with. *)
Lemma run_sources_frame (events : list LoopEvent) (w : World) :
  exists r w',
    run_sources events w = (Normal r, w') /\
    r = exitCode w' /\
    busLog w' = busLog w /\ stderr w' = stderr w /\
    loopStarted w' = loopStarted w /\
    expectedChassisState w' = expectedChassisState w /\
    expectedHostState w' = expectedHostState w /\
    (exitCode w' = exitCode w \/ exitCode w' = Some EXIT_SUCCESS
     \/ exitCode w' = Some EXIT_FAILURE).
Proof.
  revert w. induction events as [|ev rest IH]; intros w.
  - simpl. destruct (exitCode w) eqn:E; eexists _, w; rewrite E;
      repeat split; auto.
  - destruct (exitCode w) as [code|] eqn:E.
    + rewrite (run_sources_exited _ _ _ E). exists (Some code), w.
      rewrite E. repeat split; auto.
    + rewrite (run_sources_cons _ _ _ E).
      destruct (dispatch_frame ev w) as (w1 & -> & B1 & S1 & L1 & C1 & H1 & X1).
      simpl. destruct (IH w1) as (r & w' & -> & Hr & B & S & L & C & H & X).
      exists r, w'. split; [reflexivity|]. split; [exact Hr|].
      rewrite B, S, L, C, H, B1, S1, L1, C1, H1. repeat split.
      rewrite E in X1. destruct X as [X|X]; [rewrite X|]; tauto.
Qed.

(** [getProperty] sends no [Set] call. *)
Lemma getProperty_no_set (bus : Bus) (path iface property : string) (w : World) :
  setCalls (busLog (snd (getProperty bus path iface property w)))
  = setCalls (busLog w).
Proof.
  destruct (getService_total bus path iface w) as (s & w1 & errs & H & _ & Hl & _).
  rewrite (getProperty_after_lookup _ _ _ _ _ _ _ H).
  unfold setCalls.
  destruct (String.eqb s "");
    [|destruct (answerGet bus (busLog w1) s path iface property)];
    simpl; rewrite Hl, ?List.filter_app; simpl; now rewrite ?app_nil_r.
Qed.

(** A run with a known command: the two seeding reads, then the loop. *)
Lemma main_seeds (bus : Bus) (app command : string) (action : Callback)
      (events : list LoopEvent) :
  getAction command = Some action ->
  exists v1 w1 v2 w2,
    getProperty bus chassisPath chassisIface chassisState initialWorld
      = (Normal v1, w1) /\
    getProperty bus hostPath hostIface hostState (set_currentChassisState v1 w1)
      = (Normal v2, w2) /\
    main bus app [command] events initialWorld
      = systemEvent_loop bus action events (set_currentHostState v2 w2) /\
    exitCode w2 = None /\ stdout w2 = [] /\ loopStarted w2 = false /\
    expectedChassisState w2 = "" /\ expectedHostState w2 = "" /\
    currentChassisState w2 = v1 /\
    setCalls (busLog w2) = [].
Proof.
  intros H. unfold main. rewrite H. unfold bind at 1. unfold bind at 1.
  unfold bind at 1.
  pose proof (getProperty_no_set bus chassisPath chassisIface chassisState
                                 initialWorld) as N1.
  destruct (getProperty_total bus chassisPath chassisIface chassisState initialWorld)
    as (v1 & w1 & E1 & S1).
  rewrite E1 in N1 |- *.
  unfold modify at 1. unfold bind at 1.
  pose proof (getProperty_no_set bus hostPath hostIface hostState
                                 (set_currentChassisState v1 w1)) as N2.
  destruct (getProperty_total bus hostPath hostIface hostState
                              (set_currentChassisState v1 w1))
    as (v2 & w2 & E2 & S2).
  rewrite E2 in N2 |- *.
  unfold modify at 1.
  exists v1, w1, v2, w2. split; [reflexivity|]. split; [exact E2|].
  split; [reflexivity|].
  destruct S1 as (_ & A2 & _ & A4 & A5 & A6 & A7).
  destruct S2 as (B1 & B2 & _ & B4 & B5 & B6 & B7).
  simpl in *. rewrite B1, B2, B4, B5, B6, B7, A2, A4, A5, A6, A7, N2, N1.
  repeat split.
Qed.

(** The calls of an action: at most one of them is a [Set] call. *)
Lemma invoke_setCalls (bus : Bus) (action : Callback) (w : World) :
  exists new,
    busLog (snd (invoke bus action w)) = (busLog w ++ new)%list /\
    length (setCalls new) <= 1.
Proof.
  destruct (guardState action) as [g|] eqn:Hg.
  - destruct (String.eqb_spec (currentChassisState w) g) as [Hc|Hc].
    + destruct (invoke_shortcut bus action g w Hg Hc) as (line & ->).
      exists []. simpl. rewrite app_nil_r. split; [reflexivity | lia].
    + assert (Ht : exists c h, expectedTarget action = Some (c, h))
        by (destruct action; simpl in *; try discriminate; eauto).
      destruct Ht as (c & h & Ht).
      destruct (invoke_proceeds bus action c h g w Ht Hg Hc)
        as (w' & p & i & pr & v & -> & _ & _ & _ & _ & _ & Hl & _).
      eexists. split; [exact Hl|]. simpl.
      destruct (String.eqb (owner bus p i w) ""); simpl; lia.
  - destruct action; simpl in Hg; try discriminate.
    simpl. rewrite showPowerStatus_eq. exists []. simpl.
    rewrite app_nil_r. split; [reflexivity | lia].
Qed.

(** X10: no exception leaves [main], whatever the bus answers and
    whatever events arrive.  It returns [EXIT_FAILURE] without having
    entered the loop, or it has entered the loop and returns the exit
    request the loop ended with, which is [EXIT_SUCCESS] or
    [EXIT_FAILURE] (or none while the loop still waits). *)
Theorem main_returns_success_or_failure (bus : Bus) (app : string)
        (args : list string) (events : list LoopEvent) :
  exists r w',
    main bus app args events initialWorld = (Normal r, w') /\
    (r = None \/ r = Some EXIT_SUCCESS \/ r = Some EXIT_FAILURE) /\
    ((loopStarted w' = false /\ r = Some EXIT_FAILURE /\ busLog w' = []) \/
     (loopStarted w' = true /\ r = exitCode w')).
Proof.
  assert (U : exists r w',
            (showUsage app >> ret (Some EXIT_FAILURE)) initialWorld = (Normal r, w') /\
            (r = None \/ r = Some EXIT_SUCCESS \/ r = Some EXIT_FAILURE) /\
            ((loopStarted w' = false /\ r = Some EXIT_FAILURE /\ busLog w' = []) \/
             (loopStarted w' = true /\ r = exitCode w'))).
  { unfold bind. rewrite showUsage_eq. eexists _, _. split; [reflexivity|].
    split; [auto|]. left. repeat split. }
  destruct args as [|command [|b rest]]; try exact U.
  destruct (getAction command) as [action|] eqn:Ha.
  - destruct (main_seeds bus app command action events Ha)
      as (v1 & w1 & v2 & w2 & _ & _ & -> & E & _ & _ & _).
    rewrite systemEvent_loop_eq.
    destruct (invoke_effect action (set_loopStarted (set_currentHostState v2 w2)))
      as (lines & code & ec & eh & _ & H).
    destruct (H bus) as (wa & Ha' & _ & _ & _ & _ & _ & _ & La).
    destruct (invoke_outcome bus action (set_loopStarted (set_currentHostState v2 w2)))
      as (wa' & Ha'' & Xa).
    rewrite Ha' in Ha''. injection Ha'' as <-. rewrite Ha'. simpl in Xa, La |- *.
    rewrite E in Xa.
    destruct (run_sources_frame events wa)
      as (r & w' & -> & Hr & _ & _ & L & _ & _ & X).
    exists r, w'. split; [reflexivity|]. split.
    + rewrite Hr. destruct X as [X|[X|X]]; rewrite X; auto.
      destruct Xa as [Xa|Xa]; rewrite Xa; auto.
    + right. rewrite L, La. auto.
  - unfold main. rewrite Ha. exact U.
Qed.

(** X11: at the end of any run, however far it got, both expected states
    are still empty, or they are the pair the dispatched action aims at:
    an expected state is assigned once, by the action, and nothing in
    the loop assigns it again. *)
Theorem expected_states_of_a_run (bus : Bus) (app : string)
        (args : list string) (events : list LoopEvent) :
  (expectedChassisState (snd (main bus app args events initialWorld)) = "" /\
   expectedHostState (snd (main bus app args events initialWorld)) = "") \/
  (exists command action,
     args = [command] /\ getAction command = Some action /\
     expectedTarget action =
       Some (expectedChassisState (snd (main bus app args events initialWorld)),
             expectedHostState (snd (main bus app args events initialWorld)))).
Proof.
  assert (U : expectedChassisState
                (snd ((showUsage app >> ret (Some EXIT_FAILURE)) initialWorld)) = "" /\
              expectedHostState
                (snd ((showUsage app >> ret (Some EXIT_FAILURE)) initialWorld)) = "").
  { unfold bind. rewrite showUsage_eq. split; reflexivity. }
  destruct args as [|command [|b rest]]; try (left; exact U).
  destruct (getAction command) as [action|] eqn:Ha.
  - destruct (main_seeds bus app command action events Ha)
      as (v1 & w1 & v2 & w2 & _ & _ & -> & _ & _ & _ & Ec & Eh & _).
    rewrite systemEvent_loop_eq.
    set (w0 := set_loopStarted (set_currentHostState v2 w2)).
    assert (Ec0 : expectedChassisState w0 = "") by exact Ec.
    assert (Eh0 : expectedHostState w0 = "") by exact Eh.
    destruct (run_sources_frame events (snd (invoke bus action w0)))
      as (r & w' & -> & _ & _ & _ & _ & C & H & _).
    simpl. rewrite C, H.
    destruct (guardState action) as [g|] eqn:Hg.
    + destruct (String.eqb_spec (currentChassisState w0) g) as [Hc|Hc].
      * destruct (invoke_shortcut bus action g w0 Hg Hc) as (line & ->).
        left. simpl. auto.
      * assert (Ht : exists c h, expectedTarget action = Some (c, h))
          by (destruct action; simpl in *; try discriminate; eauto).
        destruct Ht as (c & h & Ht).
        destruct (invoke_proceeds bus action c h g w0 Ht Hg Hc)
          as (wa & p & i & pr & v & -> & Hec & Heh & _).
        right. exists command, action. simpl. rewrite Hec, Heh. auto.
    + destruct action; simpl in Hg; try discriminate.
      simpl. rewrite showPowerStatus_eq. left. simpl. auto.
  - left. unfold main. rewrite Ha. exact U.
Qed.

(** X12: a run sends at most one [Set] call, and every call on the bus
    is made before the first event is handled: the calls and the error
    lines of a run are those of the same run with no event at all. *)
Theorem one_request_per_run (bus : Bus) (app : string)
        (args : list string) (events : list LoopEvent) :
  length (setCalls (busLog (snd (main bus app args events initialWorld)))) <= 1 /\
  busLog (snd (main bus app args events initialWorld))
    = busLog (snd (main bus app args [] initialWorld)) /\
  stderr (snd (main bus app args events initialWorld))
    = stderr (snd (main bus app args [] initialWorld)).
Proof.
  destruct args as [|command [|b rest]];
    try (simpl; repeat split; lia).
  destruct (getAction command) as [action|] eqn:Ha.
  - destruct (main_seeds bus app command action events Ha)
      as (v1 & w1 & v2 & w2 & E1 & E2 & -> & _ & _ & _ & _ & _ & _ & N).
    destruct (main_seeds bus app command action [] Ha)
      as (v1' & w1' & v2' & w2' & E1' & E2' & -> & _).
    rewrite E1 in E1'. injection E1' as <- <-.
    rewrite E2 in E2'. injection E2' as <- <-.
    rewrite !systemEvent_loop_eq.
    set (w0 := set_loopStarted (set_currentHostState v2 w2)).
    destruct (run_sources_frame events (snd (invoke bus action w0)))
      as (r & w' & -> & _ & B & S & _).
    destruct (run_sources_frame [] (snd (invoke bus action w0)))
      as (r0 & w0' & -> & _ & B0 & S0 & _).
    simpl. rewrite B, S, B0, S0. split; [|auto].
    destruct (invoke_setCalls bus action w0) as (new & -> & Hn).
    unfold setCalls in *. rewrite List.filter_app, length_app.
    change (busLog w0) with (busLog w2). rewrite N. simpl. exact Hn.
  - unfold main. rewrite Ha. simpl. repeat split; lia.
Qed.

(** X13: while the loop waits with both expected states assigned, the
    notification that brings the expected chassis state and the one
    that brings the expected host state end it with success in either
    order of arrival, whatever the current states were before. *)
Theorem confirmations_in_either_order (mc mh : Signal) (post : list LoopEvent)
        (w : World) :
  exitCode w = None ->
  expectedChassisState w <> "" ->
  expectedHostState w <> "" ->
  ConfirmsChassis mc w ->
  ConfirmsHost mh w ->
  fst (run_sources (PropertiesChanged mc :: PropertiesChanged mh :: post) w)
    = Normal (Some EXIT_SUCCESS) /\
  fst (run_sources (PropertiesChanged mh :: PropertiesChanged mc :: post) w)
    = Normal (Some EXIT_SUCCESS).
Proof.
  intros E Nc Nh [Ic Dc] [Ih Dh]. split.
  - rewrite (run_sources_cons _ _ _ E). simpl dispatch.
    rewrite (onPropertiesChanged_chassis _ _ _ Ic Dc).
    set (w2 := add_stdout _ (set_currentChassisState _ w)).
    destruct (exitOnExpectedState_exit w2 E) as [[_ ->]|[_ ->]]; simpl snd.
    + now rewrite (run_sources_exited _ _ EXIT_SUCCESS).
    + rewrite (run_sources_cons _ _ w2 E). simpl dispatch.
      rewrite (onPropertiesChanged_host _ _ _ Ih Dh).
      set (w3 := add_stdout _ (set_currentHostState _ w2)).
      destruct (exitOnExpectedState_exit w3 E) as [[_ ->]|[N H]]; simpl snd.
      * now rewrite (run_sources_exited _ _ EXIT_SUCCESS).
      * rewrite H in N. destruct N. unfold Completed. simpl. auto.
  - rewrite (run_sources_cons _ _ _ E). simpl dispatch.
    rewrite (onPropertiesChanged_host _ _ _ Ih Dh).
    set (w2 := add_stdout _ (set_currentHostState _ w)).
    destruct (exitOnExpectedState_exit w2 E) as [[_ ->]|[_ ->]]; simpl snd.
    + now rewrite (run_sources_exited _ _ EXIT_SUCCESS).
    + rewrite (run_sources_cons _ _ w2 E). simpl dispatch.
      rewrite (onPropertiesChanged_chassis _ _ _ Ic Dc).
      set (w3 := add_stdout _ (set_currentChassisState _ w2)).
      destruct (exitOnExpectedState_exit w3 E) as [[_ ->]|[N H]]; simpl snd.
      * now rewrite (run_sources_exited _ _ EXIT_SUCCESS).
      * rewrite H in N. destruct N. unfold Completed. simpl. auto.
Qed.

Lemma confirmations_in_either_order_witness :
  fst (run_sources [PropertiesChanged (chassisSignal chassisStateOff);
                    PropertiesChanged (hostSignal hostStateOff)]
                   (set_currentChassisState chassisStateOn waitingForOff))
    = Normal (Some EXIT_SUCCESS) /\
  fst (run_sources [PropertiesChanged (hostSignal hostStateOff);
                    PropertiesChanged (chassisSignal chassisStateOff)]
                   (set_currentChassisState chassisStateOn waitingForOff))
    = Normal (Some EXIT_SUCCESS).
Proof.
  apply confirmations_in_either_order.
  - reflexivity.
  - discriminate.
  - discriminate.
  - split; reflexivity.
  - split; reflexivity.
Defined.

(** What [getProperty] returns from a peer that reports a value. *)
Lemma getProperty_Reports (bus : Bus) (path iface property v : string) (w : World) :
  Reports bus path iface property v ->
  fst (getProperty bus path iface property w) = Normal v.
Proof.
  intros R. destruct (R (busLog w)) as (services & service & Hm & Hk & Hne & Hg).
  assert (H : getService bus path iface w
              = (Normal service, add_busLog (GetObject path [iface]) w)).
  { rewrite getService_eq, Hm, Hk. reflexivity. }
  rewrite (getProperty_after_lookup _ _ _ _ _ _ _ H).
  apply String.eqb_neq in Hne. rewrite Hne, Hg. reflexivity.
Qed.

(** What [getProperty] returns when the object mapper is down. *)
Lemma getProperty_MapperDown (bus : Bus) (path iface property : string) (w : World) :
  MapperDown bus ->
  fst (getProperty bus path iface property w) = Normal "".
Proof.
  intros D. destruct (D (busLog w) path [iface]) as (what & Hm).
  erewrite getProperty_after_lookup; [|rewrite getService_eq, Hm; reflexivity].
  reflexivity.
Qed.

(** X14: when the chassis state manager reports at start-up the state
    at which the command has nothing to do (On for [on], Off for [off],
    [soft] and [reboot]), the run returns success at once: no [Set]
    call is sent, no expected state is assigned, and the events that
    are waiting are not looked at. *)
Theorem run_at_guard_state (bus : Bus) (app command g : string)
        (action : Callback) (events : list LoopEvent) :
  getAction command = Some action ->
  guardState action = Some g ->
  Reports bus chassisPath chassisIface chassisState g ->
  exists w',
    main bus app [command] events initialWorld = (Normal (Some EXIT_SUCCESS), w') /\
    setCalls (busLog w') = [] /\
    expectedChassisState w' = "" /\ expectedHostState w' = "" /\
    main bus app [command] [] initialWorld = (Normal (Some EXIT_SUCCESS), w').
Proof.
  intros Ha Hg R.
  destruct (main_seeds bus app command action events Ha)
    as (v1 & w1 & v2 & w2 & E1 & E2 & -> & _ & _ & _ & Ec & Eh & Cc & N).
  destruct (main_seeds bus app command action [] Ha)
    as (v1' & w1' & v2' & w2' & E1' & E2' & -> & _).
  rewrite E1 in E1'. injection E1' as <- <-.
  rewrite E2 in E2'. injection E2' as <- <-.
  pose proof (getProperty_Reports bus _ _ _ _ initialWorld R) as Hv.
  rewrite E1 in Hv. simpl in Hv. injection Hv as ->.
  rewrite !systemEvent_loop_eq.
  set (w0 := set_loopStarted (set_currentHostState v2 w2)).
  assert (Hc : currentChassisState w0 = g) by exact Cc.
  destruct (invoke_shortcut bus action g w0 Hg Hc) as (line & ->). simpl snd.
  rewrite !(run_sources_exited _ _ EXIT_SUCCESS) by reflexivity.
  eexists. split; [reflexivity|]. simpl. auto.
Qed.

Lemma run_at_guard_state_witness :
  exists w',
    main (steadyBus chassisStateOff hostStateOff) "hostpwrctl" ["soft"]
         [TimerExpired] initialWorld = (Normal (Some EXIT_SUCCESS), w') /\
    setCalls (busLog w') = [] /\
    expectedChassisState w' = "" /\ expectedHostState w' = "" /\
    main (steadyBus chassisStateOff hostStateOff) "hostpwrctl" ["soft"]
         [] initialWorld = (Normal (Some EXIT_SUCCESS), w').
Proof.
  apply (run_at_guard_state _ _ _ chassisStateOff SwitchHostPowerOff).
  - reflexivity.
  - reflexivity.
  - intros history. eexists _, _. split; [reflexivity|].
    split; [reflexivity|]. split; [discriminate|]. intros later. reflexivity.
Defined.

(** X15: [status] succeeds on every bus and with any events waiting: it
    prints the two current states, trimmed, which are the results of the
    two seeding reads (the chassis state read first, the host state read
    after it); it sends no [Set] call, assigns no expected state and
    handles no event; states that could not be read are printed as
    empty. *)
Theorem status_always_succeeds (bus : Bus) (app : string) (events : list LoopEvent) :
  exists w',
    main bus app ["status"] events initialWorld = (Normal (Some EXIT_SUCCESS), w') /\
    stdout w' =
      ["Current Chassis state: " +:+ trimmed (currentChassisState w') +:+ nl;
       "Current Host state: " +:+ trimmed (currentHostState w') +:+ nl] /\
    Normal (currentChassisState w')
      = fst (getProperty bus chassisPath chassisIface chassisState initialWorld) /\
    Normal (currentHostState w')
      = fst (getProperty bus hostPath hostIface hostState
               (set_currentChassisState (currentChassisState w')
                  (snd (getProperty bus chassisPath chassisIface chassisState
                                    initialWorld)))) /\
    setCalls (busLog w') = [] /\
    expectedChassisState w' = "" /\ expectedHostState w' = "".
Proof.
  destruct (main_seeds bus app "status" ShowPowerStatus events eq_refl)
    as (v1 & w1 & v2 & w2 & E1 & E2 & -> & _ & So & _ & Ec & Eh & Cc & N).
  rewrite systemEvent_loop_eq. simpl invoke. rewrite showPowerStatus_eq. simpl snd.
  rewrite (run_sources_exited _ _ EXIT_SUCCESS) by reflexivity.
  eexists. split; [reflexivity|]. simpl. rewrite So, E1, Cc. simpl.
  rewrite E2. simpl. repeat split; assumption.
Qed.

(** X16: when the object mapper answers every lookup with an error,
    [on], [off], [soft] and [reboot] read both states as empty, go past
    their guard, send no [Set] call at all, and the run ends with
    [EXIT_FAILURE] when the timer comes first. *)
Theorem unreachable_managers_time_out (bus : Bus) (app command : string)
        (action : Callback) (post : list LoopEvent) :
  MapperDown bus ->
  getAction command = Some action ->
  action <> ShowPowerStatus ->
  exists w',
    main bus app [command] (TimerExpired :: post) initialWorld
      = (Normal (Some EXIT_FAILURE), w') /\
    setCalls (busLog w') = [] /\
    currentChassisState w' = "" /\ currentHostState w' = "" /\
    expectedTarget action = Some (expectedChassisState w', expectedHostState w').
Proof.
  intros D Ha Hs.
  destruct (main_seeds bus app command action (TimerExpired :: post) Ha)
    as (v1 & w1 & v2 & w2 & E1 & E2 & -> & E & _ & _ & _ & _ & Cc & N).
  pose proof (getProperty_MapperDown bus chassisPath chassisIface chassisState
                                     initialWorld D) as H1.
  rewrite E1 in H1. simpl in H1. injection H1 as ->.
  pose proof (getProperty_MapperDown bus hostPath hostIface hostState
                                     (set_currentChassisState "" w1) D) as H2.
  rewrite E2 in H2. simpl in H2. injection H2 as ->.
  rewrite systemEvent_loop_eq.
  set (w0 := set_loopStarted (set_currentHostState "" w2)).
  assert (Hg : exists g c h, guardState action = Some g /\
                 expectedTarget action = Some (c, h) /\ g <> "")
    by (destruct action; try contradiction;
          eexists _, _, _; repeat split; discriminate).
  destruct Hg as (g & c & h & Hg & Ht & Hne).
  assert (Hc : currentChassisState w0 <> g)
    by (change (currentChassisState w0) with (currentChassisState w2);
        rewrite Cc; congruence).
  destruct (invoke_proceeds bus action c h g w0 Ht Hg Hc)
    as (wa & p & i & pr & v & -> & Hec & Heh & Hex & Hcc & Hch & Hl & _).
  simpl snd.
  assert (Ea : exitCode wa = None) by (rewrite Hex; exact E).
  rewrite (run_sources_cons _ _ _ Ea). simpl dispatch. rewrite onTimer_eq.
  simpl snd. rewrite (run_sources_exited _ _ EXIT_FAILURE) by reflexivity.
  eexists. split; [reflexivity|]. simpl.
  rewrite Hec, Heh, Hcc, Hch, Hl.
  rewrite owner_eq in *. destruct (D (busLog w0) p [i]) as (what & ->).
  simpl. unfold setCalls in *. rewrite List.filter_app. simpl.
  change (busLog w0) with (busLog w2). rewrite N.
  change (currentChassisState w0) with (currentChassisState w2). rewrite Cc.
  repeat split. exact Ht.
Qed.

Lemma unreachable_managers_time_out_witness :
  exists w',
    main ownerlessBus "hostpwrctl" ["off"] (TimerExpired :: []) initialWorld
      = (Normal (Some EXIT_FAILURE), w') /\
    setCalls (busLog w') = [] /\
    currentChassisState w' = "" /\ currentHostState w' = "" /\
    expectedTarget SwitchChassisPowerOff
      = Some (expectedChassisState w', expectedHostState w').
Proof.
  apply unreachable_managers_time_out.
  - intros history path ifaces. eexists. reflexivity.
  - reflexivity.
  - discriminate.
Defined.
